(** * Santa tracker: the position/schedule resolver, the message generator
    and the delivered-count function of [services/trackingService.ts],
    embedded in Rocq and checked against the written specification.

    Numbers.  A JavaScript number is a binary64 float.  Time values and the
    minute/hour counters derived from them are integers of magnitude below
    2^53 and are modelled as [Z]; offsets, random draws and the display
    arithmetic are modelled as [Q] (all station offsets are multiples of
    0.5, so every product and sum formed from them is exact in binary64).
    The numeric literals 0.4, 0.7 and 0.85 are given their exact binary64
    values.  [calculateGifts] is additionally modelled with the rounding to
    53 significant bits written out. *)

From Stdlib Require Import ZArith QArith Qround Qabs List String Ascii Bool Lia.
From Stdlib Require Import DecimalString Sorted Permutation Lqa.
Import ListNotations.
Local Open Scope Z_scope.

(* ================================================================== *)
(** * Part I: definitions *)
(* ================================================================== *)

(** ** ECMAScript primitives used by the service *)

Module ES.

(** *** Completion records *)

Inductive Error : Type := TypeError.

Inductive Completion (A : Type) : Type :=
| Normal (a : A)
| Throw (e : Error).
Arguments Normal {A} a.
Arguments Throw {A} e.

(** *** Arrays: [a[i]] is [undefined] outside [0 .. length-1] *)

Definition arrayGet {A : Type} (a : list A) (i : Z) : option A :=
  if i <? 0 then None else nth_error a (Z.to_nat i).

(** *** Date: time values (ECMA-262, 21.4.1) *)

Definition msPerDay : Z := 86400000.
Definition msPerHour : Z := 3600000.
Definition msPerMinute : Z := 60000.
Definition maxTime : Z := 8640000000000000.

Definition Day (t : Z) : Z := t / msPerDay.

Definition DaysInYear (y : Z) : Z :=
  if negb (y mod 4 =? 0) then 365
  else if negb (y mod 100 =? 0) then 366
  else if negb (y mod 400 =? 0) then 365
  else 366.

Definition DayFromYear (y : Z) : Z :=
  365 * (y - 1970) + (y - 1969) / 4 - (y - 1901) / 100 + (y - 1601) / 400.

Definition TimeFromYear (y : Z) : Z := msPerDay * DayFromYear y.

(** The year containing day number [d]: the specification's "largest
    [y] with [DayFromYear y <= d]", computed from an estimate that is
    off by at most one (see [ESFacts.YearFromDay_spec]). *)
Definition YearFromDay (d : Z) : Z :=
  let y0 := 1970 + (400 * d) / 146097 in
  if d <? DayFromYear y0 then y0 - 1
  else if DayFromYear (y0 + 1) <=? d then y0 + 1
  else y0.

Definition YearFromTime (t : Z) : Z := YearFromDay (Day t).

Definition InLeapYear (t : Z) : Z :=
  if DaysInYear (YearFromTime t) =? 366 then 1 else 0.

Definition DayWithinYear (t : Z) : Z := Day t - DayFromYear (YearFromTime t).

Definition MonthFromTime (t : Z) : Z :=
  let d := DayWithinYear t in
  let l := InLeapYear t in
  if d <? 31 then 0
  else if d <? 59 + l then 1
  else if d <? 90 + l then 2
  else if d <? 120 + l then 3
  else if d <? 151 + l then 4
  else if d <? 181 + l then 5
  else if d <? 212 + l then 6
  else if d <? 243 + l then 7
  else if d <? 273 + l then 8
  else if d <? 304 + l then 9
  else if d <? 334 + l then 10
  else 11.

Definition DateFromTime (t : Z) : Z :=
  let d := DayWithinYear t in
  let l := InLeapYear t in
  match MonthFromTime t with
  | 0 => d + 1
  | 1 => d - 30
  | 2 => d - 58 - l
  | 3 => d - 89 - l
  | 4 => d - 119 - l
  | 5 => d - 150 - l
  | 6 => d - 180 - l
  | 7 => d - 211 - l
  | 8 => d - 242 - l
  | 9 => d - 272 - l
  | 10 => d - 303 - l
  | _ => d - 333 - l
  end.

Definition HourFromTime (t : Z) : Z := (t / msPerHour) mod 24.
Definition MinFromTime (t : Z) : Z := (t / msPerMinute) mod 60.

(** *** Date objects.  [None] is the Invalid Date; a getter of it
    returns NaN, again [None]. *)

Definition Date : Type := option Z.

Definition Qtrunc (q : Q) : Z :=
  if Qle_bool 0 q then Qfloor q else Qceiling q.

(** [TimeClip]: a time beyond 8.64e15 ms is no date; otherwise the
    time is truncated to an integer. *)
Definition TimeClip (time : Q) : Date :=
  if Qle_bool (Qabs time) (inject_Z maxTime) then Some (Qtrunc time) else None.

(** [new Date(v)] for a finite number [v]. *)
Definition newDate (v : Q) : Date := TimeClip v.

Definition getUTCMonth (d : Date) : option Z := option_map MonthFromTime d.
Definition getUTCDate (d : Date) : option Z := option_map DateFromTime d.
Definition getUTCHours (d : Date) : option Z := option_map HourFromTime d.
Definition getUTCMinutes (d : Date) : option Z := option_map MinFromTime d.

(** *** Numbers *)

(** [a % b] on finite numbers: the remainder has the sign of [a]. *)
Definition Qrem (a b : Q) : Q := (a - b * inject_Z (Qtrunc (a / b)))%Q.

(** Rounding of an integer to binary64 (round to nearest, ties to
    even); the identity below 2^53. *)
Definition roundToDouble (z : Z) : Z :=
  let a := Z.abs z in
  if a <? 2 ^ 53 then z
  else
    let e := Z.log2 a - 52 in
    let q := a / 2 ^ e in
    let r := a mod 2 ^ e in
    let half := 2 ^ (e - 1) in
    let q' := if r <? half then q
              else if half <? r then q + 1
              else if Z.even q then q else q + 1 in
    Z.sgn z * (q' * 2 ^ e).

Definition numAdd (a b : Z) : Z := roundToDouble (a + b).
Definition numMul (a b : Z) : Z := roundToDouble (a * b).
Definition numRem (a b : Z) : Z := Z.rem a b.

(** Exact binary64 values of the decimal literals compared against
    [Math.random()]. *)
Definition lit_0_4 : Q := 3602879701896397 # 9007199254740992.
Definition lit_0_7 : Q := 3152519739159347 # 4503599627370496.
Definition lit_0_85 : Q := 7656119366529843 # 9007199254740992.
Definition lit_0_5 : Q := 1 # 2.

(** *** Strings *)

(** [Number.prototype.toString] on an integer. *)
Definition toString (z : Z) : string := NilZero.string_of_int (Z.to_int z).

Fixpoint repeatChar (c : ascii) (n : nat) : string :=
  match n with
  | O => EmptyString
  | S n' => String c (repeatChar c n')
  end.

(** [s.padStart(n, "0")] *)
Definition padStart (s : string) (n : nat) (c : ascii) : string :=
  (repeatChar c (n - String.length s) ++ s)%string.

(** [x.toFixed(f)] for |x| < 10^21, on the exact value of [x]. *)
Definition toFixed (x : Q) (f : nat) : string :=
  let neg := negb (Qle_bool 0 x) in
  let ax := if neg then Qopp x else x in
  let n := Qfloor (ax * inject_Z (10 ^ Z.of_nat f) + (1 # 2))%Q in
  let m := toString n in
  let m :=
    if Nat.eqb f 0 then m
    else
      let m := if Nat.leb (String.length m) f
               then padStart m (S f) "0"%char else m in
      let k := String.length m in
      (String.substring 0 (k - f) m ++ "." ++ String.substring (k - f) f m)%string in
  ((if neg then "-" else "") ++ m)%string.

(** [GetSubstitution] for a string pattern (no captures): expansion of
    the [$] patterns in the replacement text. *)
Fixpoint getSubstitution (matched before after : string) (repl : string) : string :=
  match repl with
  | EmptyString => EmptyString
  | String c rest =>
      if Ascii.eqb c "$"%char then
        match rest with
        | String c' rest' =>
            if Ascii.eqb c' "$"%char then
              String "$"%char (getSubstitution matched before after rest')
            else if Ascii.eqb c' "&"%char then
              (matched ++ getSubstitution matched before after rest')%string
            else if Ascii.eqb c' "`"%char then
              (before ++ getSubstitution matched before after rest')%string
            else if Ascii.eqb c' "'"%char then
              (after ++ getSubstitution matched before after rest')%string
            else String c (getSubstitution matched before after rest)
        | EmptyString => String c EmptyString
        end
      else String c (getSubstitution matched before after rest)
  end.

(** [s.replace(pat, repl)] with string [pat]: first occurrence only. *)
Definition replace (s pat repl : string) : string :=
  match String.index 0 pat s with
  | None => s
  | Some i =>
      let before := String.substring 0 i s in
      let after :=
        String.substring (i + String.length pat)
          (String.length s - (i + String.length pat)) s in
      (before ++ getSubstitution pat before after repl ++ after)%string
  end.

(** Names every ordinary object inherits from [Object.prototype]:
    [obj[k]] is a truthy non-array value for these keys even when [obj]
    has no own property [k]. *)
Definition objectPrototypeKeys : list string :=
  [ "constructor"; "__proto__"; "hasOwnProperty"; "isPrototypeOf";
    "propertyIsEnumerable"; "toLocaleString"; "toString"; "valueOf";
    "__defineGetter__"; "__defineSetter__"; "__lookupGetter__";
    "__lookupSetter__" ]%string.

Inductive Lookup (A : Type) : Type :=
| Own (v : A)
| Inherited
| Absent.
Arguments Own {A} v.
Arguments Inherited {A}.
Arguments Absent {A}.

Fixpoint assoc {A : Type} (k : string) (o : list (string * A)) : option A :=
  match o with
  | [] => None
  | (k', v) :: o' => if String.eqb k k' then Some v else assoc k o'
  end.

(** [o[k]] for an object literal [o]. *)
Definition objectGet {A : Type} (o : list (string * A)) (k : string) : Lookup A :=
  match assoc k o with
  | Some v => Own v
  | None =>
      if existsb (String.eqb k) objectPrototypeKeys then Inherited else Absent
  end.

(** ToBoolean of [o[k]]: arrays and inherited members are truthy,
    [undefined] is not. *)
Definition truthy {A : Type} (v : Lookup A) : bool :=
  match v with
  | Absent => false
  | _ => true
  end.

End ES.

Import ES.

(** ** types.ts *)

Record TrackingLocation : Type := mkLocation {
  name : string;
  offset : Q;            (* UTC offset, hours *)
  region : string;
  coordinates : Q * Q    (* latitude, longitude *)
}.

(** ** services/trackingService.ts *)

Local Open Scope string_scope.
Local Open Scope Q_scope.

Definition TRACKING_STATIONS : list TrackingLocation :=
  [ mkLocation "MIDWAY" (-11) "PACIFIC" (28.2072, -177.3735);
    mkLocation "HONOLULU" (-10) "PACIFIC" (21.3069, -157.8583);
    mkLocation "ANCHORAGE" (-9) "N. AMERICA" (61.2181, -149.9003);
    mkLocation "LOS ANGELES" (-8) "N. AMERICA" (34.0522, -118.2437);
    mkLocation "DENVER" (-7) "N. AMERICA" (39.7392, -104.9903);
    mkLocation "CHICAGO" (-6) "N. AMERICA" (41.8781, -87.6298);
    mkLocation "NEW YORK" (-5) "N. AMERICA" (40.7128, -74.0060);
    mkLocation "CARACAS" (-4) "S. AMERICA" (10.4806, -66.9036);
    mkLocation "RIO DE JANEIRO" (-3) "S. AMERICA" (-22.9068, -43.1729);
    mkLocation "CAPE VERDE" (-1) "ATLANTIC" (14.9330, -23.5133);
    mkLocation "LONDON" 0 "EUROPE" (51.5074, -0.1278);
    mkLocation "PARIS" 1 "EUROPE" (48.8566, 2.3522);
    mkLocation "CAIRO" 2 "AFRICA" (30.0444, 31.2357);
    mkLocation "MOSCOW" 3 "RUSSIA" (55.7558, 37.6173);
    mkLocation "NAIROBI" 3 "AFRICA" (-1.2864, 36.8172);
    mkLocation "DUBAI" 4 "MIDDLE EAST" (25.2048, 55.2708);
    mkLocation "TEHRAN" 3.5 "MIDDLE EAST" (35.6892, 51.3890);
    mkLocation "MUMBAI" 5.5 "ASIA" (19.0760, 72.8777);
    mkLocation "NEW DELHI" 5.5 "ASIA" (28.6139, 77.2090);
    mkLocation "DHAKA" 6 "ASIA" (23.8103, 90.4125);
    mkLocation "BANGKOK" 7 "ASIA" (13.7563, 100.5018);
    mkLocation "JAKARTA" 7 "ASIA" (-6.2088, 106.8456);
    mkLocation "BEIJING" 8 "ASIA" (39.9042, 116.4074);
    mkLocation "TOKYO" 9 "ASIA" (35.6762, 139.6503);
    mkLocation "GUAM" 10 "PACIFIC" (13.4443, 144.7937);
    mkLocation "SYDNEY" 11 "AUSTRALIA" (-33.8688, 151.2093);
    mkLocation "KAMCHATKA" 12 "RUSSIA" (56.1327, 159.5314);
    mkLocation "AUCKLAND" 13 "NEW ZEALAND" (-36.8509, 174.7645);
    mkLocation "KIRITIMATI" 14 "PACIFIC" (1.8709, -157.4014) ].

Definition NORTH_POLE_COORDS : Q * Q := (90, 0).

(** The object literal [{ name: 'NORTH POLE', region: 'ARCTIC', offset: 0,
    coordinates: NORTH_POLE_COORDS }] built in two branches. *)
Definition NORTH_POLE : TrackingLocation :=
  mkLocation "NORTH POLE" 0 "ARCTIC" NORTH_POLE_COORDS.

Record SantaLocation : Type := mkSantaLocation {
  location : TrackingLocation;
  localTime : string;
  isChristmas : bool;
  visitedLocations : list (Q * Q);
  plannedRoute : list (Q * Q)
}.

(** *** [[...TRACKING_STATIONS].sort((a, b) => b.offset - a.offset)]

    [Array.prototype.sort] is stable and the comparator is consistent, so
    its result is the unique stable ordering; it is computed here by
    insertion from the right. *)

Definition compareStations (a b : TrackingLocation) : Q := offset b - offset a.

Fixpoint insertStation (a : TrackingLocation) (l : list TrackingLocation)
  : list TrackingLocation :=
  match l with
  | [] => [a]
  | b :: l' =>
      if Qle_bool (compareStations a b) 0 then a :: b :: l'
      else b :: insertStation a l'
  end.

Fixpoint sortStations (l : list TrackingLocation) : list TrackingLocation :=
  match l with
  | [] => []
  | a :: l' => insertStation a (sortStations l')
  end.

(** *** The search loop *)

(** [smallestTimeToMidnight] starts at [Infinity]. *)
Inductive Num : Type := Fin (z : Z) | Infinity.

Definition ltNum (a : Z) (b : Num) : bool :=
  match b with
  | Fin z => (a <? z)%Z
  | Infinity => true
  end.

Record ScanState : Type := mkScan {
  currentStationIndex : Z;
  smallestTimeToMidnight : Num
}.

(** [new Date(now.getTime() + station.offset * 60 * 60 * 1000)].  The
    sum is taken exactly; it is the binary64 sum whenever the offset is
    a whole number of milliseconds, as every offset of the compiled-in
    table is.  Statements about one station's local time are made for
    that table. *)
Definition stationLocalTime (now : Z) (station : TrackingLocation) : Date :=
  newDate (inject_Z now + offset station * 60 * 60 * 1000).

(** [(24 - localHours) * 60 - localMinutes + 1] when the local date is
    December 25th, [None] when the [if] is not entered. *)
Definition minutesUntilMidnight (localTime : Date) : option Z :=
  match getUTCMonth localTime, getUTCDate localTime,
        getUTCHours localTime, getUTCMinutes localTime with
  | Some localMonth, Some localDate, Some localHours, Some localMinutes =>
      if ((localMonth =? 11) && (localDate =? 25))%Z
      then Some ((24 - localHours) * 60 - localMinutes + 1)%Z
      else None
  | _, _, _, _ => None
  end.

(** One iteration of the [for] loop. *)
Definition scanStep (now : Z) (st : ScanState) (i : Z) (station : TrackingLocation)
  : ScanState :=
  match minutesUntilMidnight (stationLocalTime now station) with
  | Some m =>
      if ltNum m (smallestTimeToMidnight st)
      then mkScan i (Fin m)
      else st
  | None => st
  end.

Fixpoint scanStations (now : Z) (l : list TrackingLocation) (i : Z) (st : ScanState)
  : ScanState :=
  match l with
  | [] => st
  | station :: l' => scanStations now l' (i + 1)%Z (scanStep now st i station)
  end.

(** [firstStationLocalTime.getUTCMonth() === 11 &&
     firstStationLocalTime.getUTCDate() < 25] *)
Definition christmasNotStarted (firstStationLocalTime : Date) : bool :=
  match getUTCMonth firstStationLocalTime, getUTCDate firstStationLocalTime with
  | Some m, Some d => ((m =? 11) && (d <? 25))%Z
  | _, _ => false
  end.

(** *** The display string *)

Definition localTimeString (utcHours utcMinutes : Z) (currentOffset : Q) : string :=
  let totalMinutes := inject_Z (utcHours * 60) + inject_Z utcMinutes + currentOffset * 60 in
  let localH := Z.rem (Qfloor (Qrem (totalMinutes / 60) 24 + 24)) 24 in
  let localM := Qfloor (Qrem totalMinutes 60) in
  (padStart (toString localH) 2 "0" ++ ":" ++ padStart (toString localM) 2 "0")%string.

(** [[NORTH_POLE_COORDS, ...all stations..., NORTH_POLE_COORDS]] *)
Definition closedLoop (stationsByTimezone : list TrackingLocation) : list (Q * Q) :=
  NORTH_POLE_COORDS :: map coordinates stationsByTimezone ++ [NORTH_POLE_COORDS].

(** *** [getSantaLocation]

    The clock reading [now] (the time value of [new Date()]), the host's
    local time zone adjustment [LocalTZA] and the station table are the
    inputs; the source reads the first two from the environment and the
    third from the module constant [TRACKING_STATIONS]. *)
Definition getSantaLocation (LocalTZA : Z -> Z) (stations : list TrackingLocation)
  (now : Z) : Completion SantaLocation :=
  let utcHours := HourFromTime now in
  let utcMinutes := MinFromTime now in
  let stationsByTimezone := sortStations stations in
  let st := scanStations now stationsByTimezone 0 (mkScan (-1) Infinity) in
  let currentStationIndex := currentStationIndex st in
  match arrayGet stationsByTimezone 0 with
  | None => Throw TypeError          (* [firstStation.offset] of [undefined] *)
  | Some firstStation =>
      let firstStationLocalTime := stationLocalTime now firstStation in
      let finish (currentStation : TrackingLocation) (visited : list (Q * Q)) :=
        let here := (now + LocalTZA now)%Z in
        Normal
          (mkSantaLocation currentStation
             (localTimeString utcHours utcMinutes (offset currentStation))
             ((DateFromTime here =? 25) && (MonthFromTime here =? 11))%Z
             visited
             (closedLoop stationsByTimezone)) in
      if christmasNotStarted firstStationLocalTime then
        finish NORTH_POLE [NORTH_POLE_COORDS]
      else if (0 <=? currentStationIndex)%Z then
        match arrayGet stationsByTimezone currentStationIndex with
        | None => Throw TypeError
        | Some currentStation =>
            finish currentStation
              (NORTH_POLE_COORDS ::
               map coordinates
                 (firstn (Z.to_nat (currentStationIndex + 1)) stationsByTimezone))
        end
      else
        finish NORTH_POLE (closedLoop stationsByTimezone)
  end.

(** *** [calculateGifts] *)

Definition calculateGifts (now : Z) : Z :=
  numAdd 4500000000 (numMul (numRem now 10000000) 15).

(** *** Message tables *)

Definition REGION_LOGS : list (string * list string) :=
  [ ("PACIFIC", ["PACIFIC COMMAND: RADAR CONTACT CONFIRMED"; "OCEANIC SENSORS DETECT SLEIGH WAKE"; "US NAVY FLEET REPORTS VISUAL"; "TROPICAL WEATHER SYSTEMS: CLEAR"]);
    ("NEW ZEALAND", ["KIWI SECTOR: AIRSPACE CLEAR"; "SOUTHERN CROSS VISUAL CONFIRMED"; "WELLINGTON CONTROL: GREETINGS"]);
    ("AUSTRALIA", ["RAAF INTERCEPTORS SCRAMBLED FOR ESCORT"; "OUTBACK SENSORS ONLINE"; "OPERATING IN SOUTHERN HEMISPHERE"]);
    ("ASIA", ["HIGH DENSITY POPULATION SECTOR"; "MANEUVERING AROUND SKYSCRAPERS"; "ORIENTAL AIR DEFENSE: FRIENDLY"; "SPEED INCREASED FOR DENSITY"]);
    ("RUSSIA", ["ENTERING RUSSIAN FEDERATION AIRSPACE"; "SIBERIAN THERMAL ANOMALY DETECTED"; "COSMODROME TRACKING ACTIVE"]);
    ("EUROPE", ["NATO EYES ONLY: TARGET TRACKING ACTIVE"; "ALPINE RADAR ECHOES"; "EU AIR TRAFFIC CONTROL: PRIORITY CLEARANCE"]);
    ("AFRICA", ["SAHARA THERMAL PLUME STABLE"; "EQUATORIAL CROSSING CONFIRMED"; "CONTINENTAL SCANS: GREEN"]);
    ("ATLANTIC", ["MID-ATLANTIC RIDGE SENSORS ACTIVE"; "CARRIER GROUP REPORTS FLYBY"; "METEOROLOGICAL DATA: HEADWINDS"]);
    ("N. AMERICA", ["NORAD MAIN SENSORS: 100% CONFIDENCE"; "EAST COAST DEFENSE GRID: GREEN"; "CANADIAN NORAD REGION: CONTACT"; "FIGHTER WING DEPLOYED AS HONOR GUARD"]);
    ("S. AMERICA", ["SOUTHERN CONE RADAR: ACTIVE"; "AMAZON BASIN THERMAL SCAN: CLEAR"]);
    ("MIDDLE EAST", ["DESERT SENSORS ONLINE"; "AIRSPACE CORRIDOR SECURED"]);
    ("ARCTIC", ["POLAR VORTEX NAVIGATION ENGAGED"; "HOME BASE TELEMETRY LINKED"; "AURORA BOREALIS INTERFERENCE: NEGLIGIBLE"]) ].

Definition ACTION_LOGS : list string :=
  [ "TARGET LOCKED: %LOC%";
    "INITIATING DELIVERY SEQUENCE: %LOC%";
    "THERMAL SPIKE DETECTED OVER %LOC%";
    "DROPPING TO ROOFTOP ALTITUDE: %LOC%";
    "SONIC BOOM REPORTED NEAR %LOC%";
    "LOCAL AUTHORITIES IN %LOC% NOTIFIED";
    "HYPER-SPEED JUMP TO %LOC% COMPLETE";
    "MAGIC DUST LEVELS: NOMINAL";
    "TIME DILATION FIELD: ACTIVE";
    "CHIMNEY ENTRY PROTOCOL: INITIATED" ].

Definition GENERIC_LOGS : list string :=
  [ "RADAR CONTACT: CONFIRMED // ID: RED SLED";
    "THERMAL SIGNATURE STABLE // EGT NORMAL";
    "AIRSPACE CLEARED FOR TRANSIT";
    "GROUND SENSORS DETECT HIGH VELOCITY OBJECT";
    "COMM CHATTER: 'MERRY CHRISTMAS' DETECTED";
    "REINDEER PROPULSION SYSTEMS NOMINAL";
    "CLOAKING DEVICE: DISENGAGED FOR LANDING";
    "INTERCEPT SQUADRON RTB // TARGET FRIENDLY";
    "ATMOSPHERIC ENTRY DETECTED // SHIELDS HOLDING";
    "TRAJECTORY ALIGNMENT: OPTIMAL";
    "VISIBILITY: UNLIMITED // CEILING: 50,000 FT" ].

(** The [templates] array local to the North Pole branch. *)
Definition STANDBY_TEMPLATES : list string :=
  [ "MISSION STATUS: STANDBY / DEBRIEF";
    "ELVES LOADING FINAL PAYLOAD MANIFEST";
    "PRE-FLIGHT DIAGNOSTICS: ALL GREEN";
    "AWAITING LAUNCH WINDOW // UTC 10:00";
    "MAINTENANCE CREWS ATTENDING RED SLED";
    "REINDEER FEEDING IN PROGRESS" ].

(** [a[Math.floor(r * a.length)]] for a draw [r] of [Math.random()].  The
    product is taken exactly; for a draw in [0, 1) the index is within
    the array, as it is in binary64.  Where the binary64 product rounds
    up to a whole number the code takes the next element; the statements
    below say which array the element comes from, never which element
    it is. *)
Definition pick (a : list string) (r : Q) : option string :=
  arrayGet a (Qfloor (r * inject_Z (Z.of_nat (List.length a)))).

Definition velocityMessage (speed : Q) : string :=
  ("CURRENT VELOCITY: MACH " ++ toFixed speed 2 ++ " // HULL INTEGRITY 100%")%string.

(** The quotient is taken exactly; the digits can differ from the
    binary64 quotient's in the last place, and no statement below reads
    them. *)
Definition payloadMessage (delivered : Q) : string :=
  ("PAYLOAD UPDATE: " ++ toFixed (delivered / 1000000000) 3 ++ "B UNITS CONFIRMED")%string.

(** *** [generateIntelMessage]

    [r1] and [r2] are the first and the second value returned by
    [Math.random()] during the call (no path draws more than two).  The
    result is a string or [undefined] ([None]). *)
Definition generateIntelMessage (locationName region : string) (speed delivered : Q)
  (r1 r2 : Q) : Completion (option string) :=
  if String.eqb locationName "NORTH POLE" then
    Normal (pick STANDBY_TEMPLATES r1)
  else
    let rand := r1 in
    if negb (Qle_bool lit_0_4 rand) then
      match pick ACTION_LOGS r2 with
      | Some tmpl => Normal (Some (replace tmpl "%LOC%" locationName))
      | None => Throw TypeError
      end
    else if negb (Qle_bool lit_0_7 rand) && truthy (objectGet REGION_LOGS region) then
      match objectGet REGION_LOGS region with
      | Own regionLogs => Normal (pick regionLogs r2)
      | _ => Normal None   (* no indexed element on an inherited member *)
      end
    else if negb (Qle_bool lit_0_85 rand) then
      if negb (Qle_bool r2 lit_0_5)
      then Normal (Some (velocityMessage speed))
      else Normal (Some (payloadMessage delivered))
    else Normal (pick GENERIC_LOGS r2).

Local Close Scope Q_scope.
Local Close Scope string_scope.

(** ** Vocabulary of the statements *)

(** Day number of December 25th of year [y], and the time value of its
    first millisecond. *)
Definition christmasDay (y : Z) : Z := DayFromYear y + DaysInYear y - 7.
Definition christmasStart (y : Z) : Z := msPerDay * christmasDay y.

(** A station's offset in milliseconds (integral for every table entry). *)
Definition offsetMs (s : TrackingLocation) : Z :=
  Qfloor (offset s * 60 * 60 * 1000).

(** The date object of an integral time value. *)
Definition validDate (t : Z) : Date :=
  if Z.abs t <=? maxTime then Some t else None.

(** What the loop computes for one station. *)
Definition minutesAt (now : Z) (s : TrackingLocation) : option Z :=
  minutesUntilMidnight (stationLocalTime now s).

Definition onTargetDay (now : Z) (s : TrackingLocation) : Prop :=
  getUTCMonth (stationLocalTime now s) = Some 11 /\
  getUTCDate (stationLocalTime now s) = Some 25.

(** The station's local date is December 26th or later in December. *)
Definition pastTargetDay (now : Z) (s : TrackingLocation) : Prop :=
  exists d, getUTCMonth (stationLocalTime now s) = Some 11 /\
            getUTCDate (stationLocalTime now s) = Some d /\ 25 < d.

Definition stationsByTimezone : list TrackingLocation :=
  sortStations TRACKING_STATIONS.

(** The first station of the east-to-west order (KIRITIMATI, UTC+14). *)
Definition easternmost : TrackingLocation := hd NORTH_POLE stationsByTimezone.

(** The mission cycle of year [y] runs from the instant the easternmost
    station (UTC+14) enters December of year [y], where the resolver
    enters its pre-mission branch, up to the same instant one year
    later. *)
Definition cycleStart (y : Z) : Z := christmasStart y - 24 * msPerDay - 50400000.
Definition inCycle (y t : Z) : Prop := cycleStart y <= t < cycleStart (y + 1).

(** The resolver is in its post-mission branch. *)
Definition postMission (now : Z) : Prop :=
  (forall s, In s TRACKING_STATIONS -> ~ onTargetDay now s) /\
  christmasNotStarted (stationLocalTime now easternmost) = false.

(** Consecutive entries of a list of offsets lie at most [D] apart. *)
Fixpoint linked (D : Z) (l : list Z) : bool :=
  match l with
  | a :: (b :: _) as l' => (a - b <=? D) && linked D l'
  | _ => true
  end.

(** East to west: offsets do not increase along the list. *)
Definition descending (a b : TrackingLocation) : Prop := (offset b <= offset a)%Q.

(** Selects the stations of one offset, to compare their order. *)
Definition sameOffset (q : Q) (s : TrackingLocation) : bool := Qeq_bool (offset s) q.

(** ** App.tsx *)

(** The gate of the tracking loops: the [isChristmas] constant of the
    component, computed from the [currentTime] state (a valid date). *)
Definition App_isChristmas (currentTime : Z) : bool :=
  let utcMonth := MonthFromTime currentTime in
  let utcDate := DateFromTime currentTime in
  let utcHours := HourFromTime currentTime in
  if (utcMonth =? 11) && (utcDate =? 25) then true
  else if (utcMonth =? 11) && (utcDate =? 24) && (10 <=? utcHours) then true
  else if (utcMonth =? 11) && (utcDate =? 26) && (utcHours <? 12) then true
  else false.

Inductive Priority : Type := LOW | MED | HIGH | CRITICAL.

Record IntelLogEntry : Type := mkLog {
  id : string;
  timestamp : string;
  message : option string;   (* what [generateIntelMessage] returned *)
  priority : Priority
}.

(** [a.slice(start, end)], negative positions counting from the end. *)
Definition slice {A : Type} (a : list A) (start end_ : Z) : list A :=
  let len := Z.of_nat (List.length a) in
  let k := if start <? 0 then Z.max (len + start) 0 else Z.min start len in
  let final := if end_ <? 0 then Z.max (len + end_) 0 else Z.min end_ len in
  firstn (Z.to_nat (final - k)) (skipn (Z.to_nat k) a).

(** The state update of [addLog]:
    [prev => [{id, timestamp, message, priority: 'MED'}, ...prev].slice(0, 5)].
    The id and the timestamp come from the clock, the locale and a random
    draw and are taken as given. *)
Definition addLog (newId newTimestamp : string) (newMessage : option string)
  (prev : list IntelLogEntry) : list IntelLogEntry :=
  slice (mkLog newId newTimestamp newMessage MED :: prev) 0 5.

(** [addLog] applied to each of a list of new entries in turn, oldest
    first. *)
Fixpoint addLogs (news : list (string * string * option string))
  (prev : list IntelLogEntry) : list IntelLogEntry :=
  match news with
  | [] => prev
  | (i, t, m) :: rest => addLogs rest (addLog i t m prev)
  end.

(** The entry [addLog] builds from an id, a timestamp and a message. *)
Definition medEntry (n : string * string * option string) : IntelLogEntry :=
  let '(i, t, m) := n in mkLog i t m MED.

(** The three entries installed while the gate is closed. *)
Definition errorLogs (t1 t2 t3 : string) : list IntelLogEntry :=
  [ mkLog "error-1" t1 (Some "SYSTEM ERROR: TRACKER OFFLINE - UNAUTHORIZED DATE") HIGH;
    mkLog "error-2" t2
      (Some "ACCESS DENIED: SANTA CLAUS TRACKER OPERATIONAL ONLY ON 25-DEC") HIGH;
    mkLog "error-3" t3 (Some "SIGNAL LOST: NO SLEIGH DETECTED IN AIRSPACE") HIGH ]%string.

(** A text without the character [$], which [replace] would expand. *)
Fixpoint dollarFree (s : string) : bool :=
  match s with
  | EmptyString => true
  | String c rest => negb (Ascii.eqb c "$"%char) && dollarFree rest
  end.

(* ================================================================== *)
(** * Part II: properties *)
(* ================================================================== *)

(** ** Calendar facts *)

Module ESFacts.

Lemma DaysInYear_cases y : DaysInYear y = 365 \/ DaysInYear y = 366.
Proof.
  unfold DaysInYear.
  repeat match goal with |- context [if ?b then _ else _] => destruct b end; auto.
Qed.

Lemma DayFromYear_succ y : DayFromYear (y + 1) = DayFromYear y + DaysInYear y.
Proof.
  unfold DayFromYear, DaysInYear.
  replace (y + 1 - 1969) with (y - 1968) by lia.
  replace (y + 1 - 1901) with (y - 1900) by lia.
  replace (y + 1 - 1601) with (y - 1600) by lia.
  replace (y + 1 - 1970) with (y - 1969) by lia.
  destruct (Z.eqb_spec (y mod 4) 0); cbn [negb];
    [destruct (Z.eqb_spec (y mod 100) 0); cbn [negb];
     [destruct (Z.eqb_spec (y mod 400) 0); cbn [negb]|]|];
    Z.div_mod_to_equations; lia.
Qed.

Lemma DayFromYear_mono a b : a <= b -> DayFromYear a <= DayFromYear b.
Proof.
  unfold DayFromYear. intros. Z.div_mod_to_equations. lia.
Qed.

(** [YearFromDay] is the year the specification defines: the one whose
    days include [d]. *)
Lemma YearFromDay_spec d :
  DayFromYear (YearFromDay d) <= d < DayFromYear (YearFromDay d + 1).
Proof.
  unfold YearFromDay.
  set (y0 := 1970 + 400 * d / 146097).
  destruct (Z.ltb_spec d (DayFromYear y0)) as [H1|H1].
  - replace (y0 - 1 + 1) with y0 by lia. split; [|assumption].
    clear H1. unfold DayFromYear, y0. Z.div_mod_to_equations. lia.
  - destruct (Z.leb_spec (DayFromYear (y0 + 1)) d) as [H2|H2].
    + split; [assumption|]. clear H1 H2.
      unfold DayFromYear, y0. Z.div_mod_to_equations. lia.
    + lia.
Qed.

Lemma YearFromDay_unique d y :
  DayFromYear y <= d < DayFromYear (y + 1) -> YearFromDay d = y.
Proof.
  intros [Hl Hu]. pose proof (YearFromDay_spec d) as [Sl Su].
  destruct (Z.lt_trichotomy (YearFromDay d) y) as [H|[H|H]]; [|assumption|].
  - assert (DayFromYear (YearFromDay d + 1) <= DayFromYear y)
      by (apply DayFromYear_mono; lia). lia.
  - assert (DayFromYear (y + 1) <= DayFromYear (YearFromDay d))
      by (apply DayFromYear_mono; lia). lia.
Qed.

Lemma DayWithinYear_bounds t :
  DayFromYear (YearFromTime t) <= Day t
  < DayFromYear (YearFromTime t) + DaysInYear (YearFromTime t).
Proof.
  unfold YearFromTime. rewrite <- DayFromYear_succ. apply YearFromDay_spec.
Qed.

(** December, in day numbers. *)
Lemma MonthFromTime_december t :
  MonthFromTime t = 11 <-> christmasDay (YearFromTime t) - 24 <= Day t.
Proof.
  pose proof (DayWithinYear_bounds t) as B.
  unfold MonthFromTime, InLeapYear, DayWithinYear, christmasDay.
  destruct (DaysInYear_cases (YearFromTime t)) as [E|E]; rewrite E in *; cbn [Z.eqb Pos.eqb];
    repeat match goal with
           | |- context [?a <? ?b] => destruct (Z.ltb_spec a b)
           end; split; intros; try lia; try discriminate.
Qed.

Lemma DateFromTime_december t :
  MonthFromTime t = 11 ->
  DateFromTime t = Day t - christmasDay (YearFromTime t) + 25.
Proof.
  intros H. unfold DateFromTime. rewrite H.
  unfold InLeapYear, DayWithinYear, christmasDay.
  destruct (DaysInYear_cases (YearFromTime t)) as [E|E]; rewrite E; cbn [Z.eqb Pos.eqb]; lia.
Qed.

(** Any day from January 1st to December 31st of year [y]. *)
Lemma YearFromTime_near_christmas y t :
  christmasDay y - 358 <= Day t < christmasDay y + 7 -> YearFromTime t = y.
Proof.
  intros H. apply YearFromDay_unique. rewrite DayFromYear_succ.
  unfold christmasDay in H. destruct (DaysInYear_cases y); lia.
Qed.

Lemma christmasDay_succ y : christmasDay y + 365 <= christmasDay (y + 1).
Proof.
  unfold christmasDay. rewrite DayFromYear_succ.
  destruct (DaysInYear_cases (y + 1)); lia.
Qed.

Lemma christmasDay_mono a b : a <= b -> christmasDay a <= christmasDay b.
Proof.
  intros H. unfold christmasDay.
  assert (DayFromYear (a + 1) <= DayFromYear (b + 1)) by (apply DayFromYear_mono; lia).
  rewrite !DayFromYear_succ in *. lia.
Qed.

(** No December 25th lies within 100 days of either end of the range
    of time values. *)
Lemma christmasDay_margin y :
  ~ (100000000 - 100 <= christmasDay y <= 100000000 + 100) /\
  ~ (- 100000000 - 100 <= christmasDay y <= - 100000000 + 100).
Proof.
  assert (E1 : christmasDay 275759 = 99999737) by (vm_compute; reflexivity).
  assert (E2 : christmasDay 275760 = 100000103) by (vm_compute; reflexivity).
  assert (E3 : christmasDay (-271822) = -100000116) by (vm_compute; reflexivity).
  assert (E4 : christmasDay (-271821) = -99999751) by (vm_compute; reflexivity).
  split; intros H.
  - destruct (Z.le_gt_cases y 275759) as [L|L].
    + apply christmasDay_mono in L. lia.
    + assert (L' : 275760 <= y) by lia. apply christmasDay_mono in L'. lia.
  - destruct (Z.le_gt_cases y (-271822)) as [L|L].
    + apply christmasDay_mono in L. lia.
    + assert (L' : -271821 <= y) by lia. apply christmasDay_mono in L'. lia.
Qed.

End ESFacts.

(** ** Date objects and the two date tests of the resolver *)

Module DateFacts.
Import ESFacts.

Lemma validDate_valid L : Z.abs L <= maxTime -> validDate L = Some L.
Proof.
  intros H. unfold validDate. destruct (Z.leb_spec (Z.abs L) maxTime); [reflexivity|lia].
Qed.

Lemma validDate_Some L L' : validDate L = Some L' -> Z.abs L <= maxTime /\ L' = L.
Proof.
  unfold validDate. destruct (Z.leb_spec (Z.abs L) maxTime); [|discriminate].
  intros E. injection E as <-. auto.
Qed.

Lemma HourFromTime_range t : 0 <= HourFromTime t <= 23.
Proof. unfold HourFromTime. pose proof (Z.mod_pos_bound (t / msPerHour) 24). lia. Qed.

Lemma MinFromTime_range t : 0 <= MinFromTime t <= 59.
Proof. unfold MinFromTime. pose proof (Z.mod_pos_bound (t / msPerMinute) 60). lia. Qed.

(** The wall clock moves forward within a day. *)
Lemma clock_mono L L' :
  Day L = Day L' -> L <= L' ->
  HourFromTime L * 60 + MinFromTime L <= HourFromTime L' * 60 + MinFromTime L'.
Proof.
  unfold Day, HourFromTime, MinFromTime, msPerDay, msPerHour, msPerMinute.
  intros HD HL. Z.div_mod_to_equations. lia.
Qed.

Lemma minutesUntilMidnight_Some L m :
  minutesUntilMidnight (validDate L) = Some m <->
  Z.abs L <= maxTime /\ Day L = christmasDay (YearFromTime L) /\
  m = (24 - HourFromTime L) * 60 - MinFromTime L + 1.
Proof.
  unfold minutesUntilMidnight, validDate.
  destruct (Z.leb_spec (Z.abs L) maxTime) as [V|V]; cbn.
  2:{ split; [discriminate|lia]. }
  pose proof (MonthFromTime_december L) as M.
  pose proof (DayWithinYear_bounds L) as B.
  destruct (Z.eqb_spec (MonthFromTime L) 11) as [E|E]; cbn.
  - rewrite (DateFromTime_december _ E).
    destruct (Z.eqb_spec (Day L - christmasDay (YearFromTime L) + 25) 25) as [E'|E'].
    + split; [intros [= <-]|intros (_ & _ & ->)]; auto. repeat split; auto; lia.
    + split; [discriminate|lia].
  - split; [discriminate|]. intros (_ & D & _). exfalso. apply E, M. lia.
Qed.

Lemma christmasNotStarted_true L :
  christmasNotStarted (validDate L) = true <->
  Z.abs L <= maxTime /\
  christmasDay (YearFromTime L) - 24 <= Day L < christmasDay (YearFromTime L).
Proof.
  unfold christmasNotStarted, validDate.
  destruct (Z.leb_spec (Z.abs L) maxTime) as [V|V]; cbn.
  2:{ split; [discriminate|lia]. }
  pose proof (MonthFromTime_december L) as M.
  destruct (Z.eqb_spec (MonthFromTime L) 11) as [E|E]; cbn.
  - rewrite (DateFromTime_december _ E).
    apply M in E.
    destruct (Z.ltb_spec (Day L - christmasDay (YearFromTime L) + 25) 25);
      (split; [first [discriminate | intros _; split; [assumption|lia]]
              | first [reflexivity | lia]]).
  - split; [discriminate|]. intros (_ & D). exfalso. apply E, M. lia.
Qed.

End DateFacts.

(** ** The east-to-west order *)

Module SortFacts.

Lemma insertStation_perm a l : Permutation (a :: l) (insertStation a l).
Proof.
  induction l as [|b l IH]; cbn; [reflexivity|].
  destruct (Qle_bool (compareStations a b) 0); [reflexivity|].
  rewrite perm_swap. apply perm_skip, IH.
Qed.

Lemma sortStations_perm l : Permutation l (sortStations l).
Proof.
  induction l as [|a l IH]; cbn; [reflexivity|].
  rewrite <- insertStation_perm. apply perm_skip, IH.
Qed.

Lemma sortStations_length l : List.length (sortStations l) = List.length l.
Proof. symmetry. apply Permutation_length, sortStations_perm. Qed.

Lemma sortStations_In s l : In s (sortStations l) <-> In s l.
Proof.
  split; apply Permutation_in; [symmetry|]; apply sortStations_perm.
Qed.

Lemma compare_le a b : Qle_bool (compareStations a b) 0 = true <-> (offset b <= offset a)%Q.
Proof. rewrite Qle_bool_iff. unfold compareStations. split; intros; lra. Qed.

Lemma insertStation_sorted a l :
  Sorted descending l -> Sorted descending (insertStation a l).
Proof.
  induction l as [|b l IH]; cbn; intros S; [repeat constructor|].
  destruct (Qle_bool (compareStations a b) 0) eqn:E.
  - constructor; [assumption|]. constructor. apply compare_le, E.
  - inversion S as [|? ? S' Hd]; subst.
    assert (Hab : descending b a).
    { unfold descending. destruct (Qlt_le_dec (offset b) (offset a)) as [L|L]; [|exact L].
      apply Qlt_le_weak in L. apply compare_le in L. congruence. }
    constructor; [apply IH, S'|].
    destruct l as [|c l]; cbn; [constructor; exact Hab|].
    destruct (Qle_bool (compareStations a c) 0); constructor; [exact Hab|].
    inversion Hd; assumption.
Qed.

Lemma descending_trans : Relations_1.Transitive descending.
Proof. intros a b c. unfold descending. intros; lra. Qed.

(** The order is offset-descending... *)
Lemma sortStations_sorted l : StronglySorted descending (sortStations l).
Proof.
  apply Sorted_StronglySorted; [exact descending_trans|].
  induction l as [|a l IH]; cbn; [constructor|]. apply insertStation_sorted, IH.
Qed.

Lemma insertStation_stable q a l :
  filter (sameOffset q) (insertStation a l) = filter (sameOffset q) (a :: l).
Proof.
  induction l as [|b l IH]; [reflexivity|].
  cbn [insertStation]. destruct (Qle_bool (compareStations a b) 0) eqn:E; [reflexivity|].
  cbn [filter] in *. rewrite IH.
  destruct (sameOffset q a) eqn:Ea, (sameOffset q b) eqn:Eb; try reflexivity.
  exfalso. unfold sameOffset in *. apply Qeq_bool_iff in Ea, Eb.
  assert (L : (offset b <= offset a)%Q) by lra. apply compare_le in L. congruence.
Qed.

(** ...and stable: stations with equal offsets keep their table order. *)
Lemma sortStations_stable q l :
  filter (sameOffset q) (sortStations l) = filter (sameOffset q) l.
Proof.
  induction l as [|a l IH]; [reflexivity|].
  cbn [sortStations]. rewrite insertStation_stable. cbn [filter]. rewrite IH. reflexivity.
Qed.

Lemma sortStations_nonempty l : l <> [] -> exists s l', sortStations l = s :: l'.
Proof.
  intros H. destruct (sortStations l) as [|s l'] eqn:E; [|eauto].
  exfalso. apply H. apply length_zero_iff_nil. rewrite <- sortStations_length, E. reflexivity.
Qed.

End SortFacts.

(** ** The search loop *)

Module ScanFacts.

Lemma scanStations_app now l1 l2 i st :
  scanStations now (l1 ++ l2) i st =
  scanStations now l2 (i + Z.of_nat (List.length l1)) (scanStations now l1 i st).
Proof.
  revert i st. induction l1 as [|a l1 IH]; intros i st; cbn [app scanStations List.length].
  - f_equal. lia.
  - rewrite IH. f_equal. lia.
Qed.

(** What the loop leaves behind: either nothing was found, or the index
    of the first station attaining the least number of minutes. *)
Lemma scanStations_spec now l :
  let st := scanStations now l 0 (mkScan (-1) Infinity) in
  (currentStationIndex st = -1 /\ smallestTimeToMidnight st = Infinity /\
   forall s, In s l -> minutesAt now s = None)
  \/
  (exists k s m,
      currentStationIndex st = Z.of_nat k /\ smallestTimeToMidnight st = Fin m /\
      nth_error l k = Some s /\ minutesAt now s = Some m /\
      forall j s' m', nth_error l j = Some s' -> minutesAt now s' = Some m' ->
                      m <= m' /\ ((j < k)%nat -> m < m')).
Proof.
  induction l as [|x l IH] using rev_ind; cbn zeta.
  - left. cbn. intuition.
  - rewrite scanStations_app. cbn [scanStations]. rewrite Z.add_0_l.
    cbn zeta in IH. set (st := scanStations now l 0 (mkScan (-1) Infinity)) in *.
    unfold scanStep. fold (minutesAt now x).
    destruct IH as [(Hi & Hs & Hn)|(k & s & m & Hi & Hs & Hk & Hm & Hmin)].
    + destruct (minutesAt now x) as [mx|] eqn:Ex.
      * rewrite Hs. cbn [ltNum]. right. exists (List.length l), x, mx. cbn.
        repeat split; auto.
        { rewrite nth_error_app2, Nat.sub_diag; [reflexivity|lia]. }
        { destruct (Nat.lt_ge_cases j (List.length l)) as [Lj|Lj].
          - rewrite nth_error_app1 in H by assumption.
            apply nth_error_In, Hn in H. congruence.
          - rewrite nth_error_app2 in H by assumption.
            destruct (j - List.length l)%nat as [|n]; cbn in H;
              [injection H as <-; rewrite Ex in H0; injection H0 as <-; lia|].
            destruct n; discriminate. }
        { intros Lj. rewrite nth_error_app1 in H by assumption.
          apply nth_error_In, Hn in H. congruence. }
      * left. repeat split; auto. intros s Hin. apply in_app_or in Hin.
        destruct Hin as [Hin|[<-|[]]]; auto.
    + assert (Hkl : (k < List.length l)%nat) by (apply nth_error_Some; congruence).
      destruct (minutesAt now x) as [mx|] eqn:Ex.
      * rewrite Hs. cbn [ltNum]. destruct (Z.ltb_spec mx m) as [Lt|Ge].
        { right. exists (List.length l), x, mx. cbn.
          split; [reflexivity|]. split; [reflexivity|].
          split; [rewrite nth_error_app2, Nat.sub_diag; [reflexivity|lia]|].
          split; [assumption|]. intros j s' m' Hj Hm'.
          destruct (Nat.lt_ge_cases j (List.length l)) as [Lj|Lj].
          - rewrite nth_error_app1 in Hj by assumption.
            destruct (Hmin _ _ _ Hj Hm'). lia.
          - rewrite nth_error_app2 in Hj by assumption.
            destruct (j - List.length l)%nat as [|n] eqn:En; cbn in Hj;
              [injection Hj as <-; rewrite Ex in Hm'; injection Hm' as <-; lia|].
            destruct n; discriminate. }
        { right. exists k, s, m. split; [assumption|]. split; [assumption|].
          split; [rewrite nth_error_app1; assumption|]. split; [assumption|].
          intros j s' m' Hj Hm'.
          destruct (Nat.lt_ge_cases j (List.length l)) as [Lj|Lj].
          - rewrite nth_error_app1 in Hj by assumption. eauto.
          - rewrite nth_error_app2 in Hj by assumption.
            destruct (j - List.length l)%nat as [|n] eqn:En; cbn in Hj;
              [injection Hj as <-; rewrite Ex in Hm'; injection Hm' as <-; lia|].
            destruct n; discriminate. }
      * right. exists k, s, m. split; [assumption|]. split; [assumption|].
        split; [rewrite nth_error_app1; assumption|]. split; [assumption|].
        intros j s' m' Hj Hm'.
        destruct (Nat.lt_ge_cases j (List.length l)) as [Lj|Lj].
        { rewrite nth_error_app1 in Hj by assumption. eauto. }
        { rewrite nth_error_app2 in Hj by assumption.
          destruct (j - List.length l)%nat as [|n] eqn:En; cbn in Hj;
            [injection Hj as <-; congruence|]. destruct n; discriminate. }
Qed.

End ScanFacts.

(** ** The branches of [getSantaLocation], for any station table *)

Module ResolverFacts.
Import ScanFacts SortFacts.

Lemma arrayGet_of_nat {A} (l : list A) k : arrayGet l (Z.of_nat k) = nth_error l k.
Proof.
  unfold arrayGet. destruct (Z.ltb_spec (Z.of_nat k) 0); [lia|]. now rewrite Nat2Z.id.
Qed.

Lemma closedLoop_length l : List.length (closedLoop l) = (List.length l + 2)%nat.
Proof. unfold closedLoop. cbn. rewrite length_app, length_map. cbn. lia. Qed.

Lemma getSantaLocation_empty tza now :
  getSantaLocation tza [] now = Throw TypeError.
Proof. reflexivity. Qed.

(** The three branches, with what the loop has established in each. *)
Lemma getSantaLocation_cases tza stations now first rest :
  sortStations stations = first :: rest ->
  exists r, getSantaLocation tza stations now = Normal r /\
    plannedRoute r = closedLoop (sortStations stations) /\
    localTime r =
      localTimeString (HourFromTime now) (MinFromTime now) (offset (location r)) /\
    ( (christmasNotStarted (stationLocalTime now first) = true /\
       location r = NORTH_POLE /\ visitedLocations r = [NORTH_POLE_COORDS])
    \/ (christmasNotStarted (stationLocalTime now first) = false /\
        exists k cur m,
          nth_error (sortStations stations) k = Some cur /\
          minutesAt now cur = Some m /\
          (forall j s' m', nth_error (sortStations stations) j = Some s' ->
                           minutesAt now s' = Some m' ->
                           m <= m' /\ ((j < k)%nat -> m < m')) /\
          location r = cur /\
          visitedLocations r =
            NORTH_POLE_COORDS ::
            map coordinates (firstn (S k) (sortStations stations)))
    \/ (christmasNotStarted (stationLocalTime now first) = false /\
        (forall s, In s (sortStations stations) -> minutesAt now s = None) /\
        location r = NORTH_POLE /\
        visitedLocations r = closedLoop (sortStations stations))).
Proof.
  intros Es. unfold getSantaLocation.
  pose proof (scanStations_spec now (sortStations stations)) as S. cbn zeta in S.
  rewrite Es in *.
  change (arrayGet (first :: rest) 0) with (Some first). cbv iota beta.
  destruct (christmasNotStarted (stationLocalTime now first)) eqn:Ec.
  - eexists. split; [reflexivity|]. cbn. auto 6.
  - destruct S as [(Hi & _ & Hn)|(k & cur & m & Hi & _ & Hk & Hm & Hmin)]; rewrite Hi.
    + change (0 <=? -1) with false. cbv iota.
      eexists. split; [reflexivity|]. cbn. split; [reflexivity|]. split; [reflexivity|].
      right. right. auto.
    + destruct (Z.leb_spec 0 (Z.of_nat k)); [|lia].
      rewrite arrayGet_of_nat, Hk.
      eexists. split; [reflexivity|]. cbn [plannedRoute localTime location visitedLocations].
      split; [reflexivity|]. split; [reflexivity|].
      right. left. split; [reflexivity|]. exists k, cur, m.
      repeat (split; [assumption || reflexivity|]).
      replace (Z.to_nat (Z.of_nat k + 1)) with (S k) by lia. reflexivity.
Qed.

(** The host's time zone enters the [isChristmas] flag only. *)
Lemma getSantaLocation_host tza tza' stations now :
  match getSantaLocation tza stations now, getSantaLocation tza' stations now with
  | Normal r, Normal r' =>
      location r = location r' /\ localTime r = localTime r' /\
      visitedLocations r = visitedLocations r' /\ plannedRoute r = plannedRoute r'
  | Throw _, Throw _ => True
  | _, _ => False
  end.
Proof.
  unfold getSantaLocation.
  destruct (arrayGet (sortStations stations) 0); [|exact I].
  destruct (christmasNotStarted _); [cbn; auto|].
  destruct (0 <=? _); [|cbn; auto].
  destruct (arrayGet (sortStations stations) _); [cbn; auto|exact I].
Qed.

(** On a table with at least one station the resolver returns. *)
Lemma getSantaLocation_returns tza stations now :
  stations <> [] -> exists r, getSantaLocation tza stations now = Normal r.
Proof.
  intros H. destruct (sortStations_nonempty _ H) as (s & l & E).
  destruct (getSantaLocation_cases tza stations now s l E) as (r & Hr & _). eauto.
Qed.

End ResolverFacts.

(** ** The compiled-in station table *)

Module TableFacts.
Import ESFacts DateFacts SortFacts.

Lemma Qtrunc_integral now q z :
  (q == inject_Z z)%Q -> Qtrunc (inject_Z now + q) = now + z.
Proof.
  intros H.
  assert (E : (inject_Z now + q == inject_Z (now + z))%Q)
    by (rewrite H, inject_Z_plus; reflexivity).
  unfold Qtrunc.
  rewrite (Qfloor_comp _ _ E), (Qceiling_comp _ _ E), Qfloor_Z, Qceiling_Z.
  destruct (Qle_bool 0 (inject_Z now + q)); reflexivity.
Qed.

(** Every offset of the table is a whole number of milliseconds between
    UTC-11 and UTC+14. *)
Lemma table_offsets s :
  In s TRACKING_STATIONS ->
  (offset s * 60 * 60 * 1000 == inject_Z (offsetMs s))%Q /\
  -39600000 <= offsetMs s <= 50400000.
Proof.
  assert (F : Forall (fun s => (offset s * 60 * 60 * 1000 == inject_Z (offsetMs s))%Q /\
                               -39600000 <= offsetMs s <= 50400000) TRACKING_STATIONS).
  { unfold TRACKING_STATIONS.
    repeat (apply Forall_cons;
            [split; [vm_compute; reflexivity|split; vm_compute; discriminate]|]).
    apply Forall_nil. }
  rewrite Forall_forall in F. apply F.
Qed.

Lemma TimeClip_integral now q z :
  (q == inject_Z z)%Q -> TimeClip (inject_Z now + q) = validDate (now + z).
Proof.
  intros H. unfold TimeClip, validDate. rewrite (Qtrunc_integral now q z H).
  assert (E : (inject_Z now + q == inject_Z (now + z))%Q)
    by (rewrite H, inject_Z_plus; reflexivity).
  assert (B : Qle_bool (Qabs (inject_Z now + q)) (inject_Z maxTime)
              = (Z.abs (now + z) <=? maxTime)).
  { rewrite (Qleb_comp _ _ (Qabs_wd _ _ E) _ _ (Qeq_refl _)).
    unfold Qle_bool, Qabs, inject_Z. cbn [Qnum Qden]. now rewrite !Z.mul_1_r. }
  rewrite B. reflexivity.
Qed.

Lemma stationLocalTime_table now s :
  In s TRACKING_STATIONS -> stationLocalTime now s = validDate (now + offsetMs s).
Proof.
  intros H. unfold stationLocalTime, newDate.
  apply TimeClip_integral, table_offsets, H.
Qed.

Lemma In_stationsByTimezone s : In s stationsByTimezone <-> In s TRACKING_STATIONS.
Proof. apply sortStations_In. Qed.

Lemma stationsByTimezone_length : List.length stationsByTimezone = 29%nat.
Proof. unfold stationsByTimezone. rewrite sortStations_length. reflexivity. Qed.

(** The easternmost station is KIRITIMATI, UTC+14. *)
Lemma stationsByTimezone_first :
  stationsByTimezone = easternmost :: tl stationsByTimezone.
Proof. vm_compute. reflexivity. Qed.

Lemma easternmost_offset : offsetMs easternmost = 50400000.
Proof. vm_compute. reflexivity. Qed.

Lemma easternmost_In : In easternmost TRACKING_STATIONS.
Proof.
  apply (proj1 (In_stationsByTimezone easternmost)).
  rewrite stationsByTimezone_first. left. reflexivity.
Qed.

Lemma descending_offsetMs a b : descending a b -> offsetMs b <= offsetMs a.
Proof.
  unfold descending, offsetMs. intros H. apply Qfloor_resp_le. lra.
Qed.

Lemma StronglySorted_nth_error {A} (R : A -> A -> Prop) l :
  StronglySorted R l ->
  forall i j a b, (i < j)%nat -> nth_error l i = Some a -> nth_error l j = Some b -> R a b.
Proof.
  induction 1 as [|x l S IH F]; intros i j a b Hij Hi Hj.
  - destruct i; discriminate.
  - destruct j as [|j]; [lia|]. cbn in Hj. destruct i as [|i]; cbn in Hi.
    + injection Hi as <-. rewrite Forall_forall in F. eapply F, nth_error_In, Hj.
    + eapply IH; [|eassumption|eassumption]. lia.
Qed.

(** Local times do not increase along the east-to-west order. *)
Lemma stationsByTimezone_offsets i j a b :
  (i <= j)%nat -> nth_error stationsByTimezone i = Some a ->
  nth_error stationsByTimezone j = Some b -> offsetMs b <= offsetMs a.
Proof.
  intros Hij Hi Hj. destruct (Nat.eq_dec i j) as [->|N].
  - rewrite Hi in Hj. injection Hj as <-. lia.
  - apply descending_offsetMs.
    eapply (StronglySorted_nth_error descending);
      [apply sortStations_sorted| |exact Hi|exact Hj]. lia.
Qed.

Lemma last_cons_indep {A} (a : A) l d d' : last (a :: l) d = last (a :: l) d'.
Proof.
  revert a. induction l as [|b l IH]; intros a; [reflexivity|].
  change (last (b :: l) d = last (b :: l) d'). apply IH.
Qed.

Lemma linked_window D l : forall o0 t X,
  linked D (o0 :: l) = true -> X <= t + o0 -> t + last (o0 :: l) o0 < X + D ->
  exists o, In o (o0 :: l) /\ X <= t + o < X + D.
Proof.
  induction l as [|o1 l IH]; intros o0 t X HL H0 Hlast.
  - exists o0. cbn in *. split; [auto|lia].
  - destruct (Z.lt_ge_cases (t + o0) (X + D)) as [Hin|Hout].
    + exists o0. split; [left; reflexivity|lia].
    + cbn [linked] in HL. apply andb_prop in HL as [Hgap HL].
      apply Z.leb_le in Hgap.
      destruct (IH o1 t X HL) as (o & Ho & Hw).
      * lia.
      * change (last (o0 :: o1 :: l) o0) with (last (o1 :: l) o0) in Hlast.
        rewrite (last_cons_indep _ _ o1 o0). exact Hlast.
      * exists o. split; [right; exact Ho|exact Hw].
Qed.

Lemma linked_window_list D l t X :
  linked D l = true -> l <> [] -> X <= t + hd 0 l -> t + last l 0 < X + D ->
  exists o, In o l /\ X <= t + o < X + D.
Proof.
  destruct l as [|o0 l]; [congruence|]. intros HL _ H0 Hlast.
  apply linked_window; [assumption|assumption|].
  rewrite (last_cons_indep _ _ o0 0). exact Hlast.
Qed.

(** While December 25th lasts anywhere between UTC+14 and UTC-11, some
    station of the table is inside it: neighbouring stations are at most
    two hours apart. *)
Lemma station_in_window t X :
  X <= t + 50400000 -> t - 39600000 < X + msPerDay ->
  exists s, In s TRACKING_STATIONS /\ X <= t + offsetMs s < X + msPerDay.
Proof.
  intros H0 H1.
  assert (E : hd 0 (map offsetMs stationsByTimezone) = 50400000 /\
              last (map offsetMs stationsByTimezone) 0 = -39600000 /\
              linked msPerDay (map offsetMs stationsByTimezone) = true /\
              List.length (map offsetMs stationsByTimezone) = 29%nat)
    by (vm_compute; auto).
  destruct E as (Ehd & Elast & HL & Hlen).
  destruct (linked_window_list msPerDay _ t X HL) as (o & Ho & Hw).
  - intros N. rewrite N in Hlen. discriminate.
  - rewrite Ehd. lia.
  - rewrite Elast. lia.
  - apply in_map_iff in Ho as (s & Hs & Hin).
    exists s. split; [apply (proj1 (In_stationsByTimezone s)), Hin|]. lia.
Qed.

End TableFacts.

(** ** The mission on the compiled-in table *)

Module MissionFacts.
Import ESFacts DateFacts SortFacts ScanFacts ResolverFacts TableFacts.

Lemma Day_bounds L : msPerDay * Day L <= L < msPerDay * Day L + msPerDay.
Proof. unfold Day, msPerDay. Z.div_mod_to_equations. lia. Qed.

Lemma onTargetDay_minutesAt now s :
  onTargetDay now s <-> exists m, minutesAt now s = Some m.
Proof.
  unfold onTargetDay, minutesAt, minutesUntilMidnight,
    getUTCMonth, getUTCDate, getUTCHours, getUTCMinutes.
  destruct (stationLocalTime now s) as [L|]; cbn [option_map].
  - destruct (Z.eqb_spec (MonthFromTime L) 11) as [E|E],
             (Z.eqb_spec (DateFromTime L) 25) as [E'|E']; cbn [andb];
      (split; [intros [[= A] [= B]]|intros [m M]]);
      first [congruence | discriminate | solve [eauto] | split; congruence].
  - split; [intros [[=] _]|intros [m [=]]].
Qed.

Lemma minutesAt_table now s m :
  In s TRACKING_STATIONS ->
  minutesAt now s = Some m <->
  Z.abs (now + offsetMs s) <= maxTime /\
  Day (now + offsetMs s) = christmasDay (YearFromTime (now + offsetMs s)) /\
  m = (24 - HourFromTime (now + offsetMs s)) * 60 - MinFromTime (now + offsetMs s) + 1.
Proof.
  intros H. unfold minutesAt. rewrite (stationLocalTime_table now s H).
  apply minutesUntilMidnight_Some.
Qed.

Lemma pastTargetDay_table now s :
  In s TRACKING_STATIONS ->
  pastTargetDay now s <->
  Z.abs (now + offsetMs s) <= maxTime /\
  christmasDay (YearFromTime (now + offsetMs s)) < Day (now + offsetMs s).
Proof.
  intros H. unfold pastTargetDay. rewrite (stationLocalTime_table now s H).
  set (L := now + offsetMs s). unfold validDate, getUTCMonth, getUTCDate.
  pose proof (MonthFromTime_december L) as M.
  destruct (Z.leb_spec (Z.abs L) maxTime) as [V|V]; cbn.
  - split.
    + intros (d & [= Em] & [= Ed] & Hd). split; [assumption|].
      rewrite (DateFromTime_december _ Em) in Ed. lia.
    + intros (_ & Hd). assert (Em : MonthFromTime L = 11) by (apply M; lia).
      exists (DateFromTime L). rewrite Em. repeat split.
      rewrite (DateFromTime_december _ Em). lia.
  - split; [intros (d & [=] & _)|lia].
Qed.

(** Within 25 hours of a valid December 25th everything is valid and in
    the same year. *)
Lemma near_christmas L L' :
  Z.abs L <= maxTime -> Day L = christmasDay (YearFromTime L) ->
  Z.abs (L' - L) <= 90000000 ->
  Z.abs L' <= maxTime /\ YearFromTime L' = YearFromTime L /\
  Day L - 2 <= Day L' <= Day L + 2.
Proof.
  intros V D N. set (Y := YearFromTime L) in *.
  pose proof (christmasDay_margin Y) as [M1 M2].
  pose proof (Day_bounds L) as B. pose proof (Day_bounds L') as B'.
  unfold maxTime, msPerDay in *.
  assert (R : Day L - 2 <= Day L' <= Day L + 2) by lia.
  split; [lia|]. split; [|exact R].
  apply YearFromTime_near_christmas. fold Y. lia.
Qed.

(** Once a station is on December 25th the pre-mission test fails. *)
Lemma candidate_not_pre now s m :
  In s TRACKING_STATIONS -> minutesAt now s = Some m ->
  christmasNotStarted (stationLocalTime now easternmost) = false.
Proof.
  intros Hs Hm. apply (minutesAt_table now s m Hs) in Hm as (V & D & _).
  rewrite (stationLocalTime_table now _ easternmost_In), easternmost_offset.
  destruct (christmasNotStarted (validDate (now + 50400000))) eqn:E; [|reflexivity].
  apply christmasNotStarted_true in E as (V0 & D0).
  pose proof (table_offsets s Hs) as (_ & Ho).
  destruct (near_christmas _ (now + 50400000) V D) as (_ & EY & _); [lia|].
  rewrite EY in D0.
  pose proof (Day_bounds (now + offsetMs s)). pose proof (Day_bounds (now + 50400000)).
  unfold msPerDay in *. lia.
Qed.



Lemma firstn_S_snoc {A} (l : list A) k a :
  nth_error l k = Some a -> firstn (S k) l = firstn k l ++ [a].
Proof.
  revert k. induction l as [|b l IH]; intros [|k]; cbn; try discriminate.
  - intros [= <-]. reflexivity.
  - intros H. f_equal. apply IH, H.
Qed.

Lemma nth_stationsByTimezone_In k s :
  nth_error stationsByTimezone k = Some s -> In s TRACKING_STATIONS.
Proof.
  intros H. apply (proj1 (In_stationsByTimezone s)). eapply nth_error_In, H.
Qed.

Section Active.
Variables (now : Z) (k : nat) (cur : TrackingLocation) (m : Z).
Hypothesis Hk : nth_error stationsByTimezone k = Some cur.
Hypothesis Hm : minutesAt now cur = Some m.
Hypothesis Hmin :
  forall j s' m', nth_error stationsByTimezone j = Some s' ->
                  minutesAt now s' = Some m' -> m <= m' /\ ((j < k)%nat -> m < m').

(** Every station ahead of the current one has left December 25th... *)
Lemma earlier_past j s' :
  (j < k)%nat -> nth_error stationsByTimezone j = Some s' -> pastTargetDay now s'.
Proof.
  intros Hjk Hj.
  pose proof (nth_stationsByTimezone_In _ _ Hk) as Ic.
  pose proof (nth_stationsByTimezone_In _ _ Hj) as Is.
  pose proof (stationsByTimezone_offsets j k s' cur ltac:(lia) Hj Hk) as Ho.
  pose proof (table_offsets _ Ic) as (_ & Bc).
  pose proof (table_offsets _ Is) as (_ & Bs).
  pose proof Hm as Hm'. apply (minutesAt_table now cur m Ic) in Hm' as (V & D & Em).
  destruct (near_christmas _ (now + offsetMs s') V D) as (V' & EY & R); [lia|].
  apply (pastTargetDay_table now s' Is). split; [exact V'|]. rewrite EY, <- D.
  destruct (Z.eq_dec (Day (now + offsetMs s')) (Day (now + offsetMs cur))) as [Eq|Ne].
  - exfalso.
    assert (Hs : minutesAt now s' =
                 Some ((24 - HourFromTime (now + offsetMs s')) * 60
                       - MinFromTime (now + offsetMs s') + 1)).
    { apply (minutesAt_table now s' _ Is). rewrite EY, Eq. auto. }
    destruct (Hmin _ _ _ Hj Hs) as [_ Hlt]. specialize (Hlt Hjk).
    pose proof (clock_mono (now + offsetMs cur) (now + offsetMs s') (eq_sym Eq)).
    lia.
  - pose proof (Day_bounds (now + offsetMs s')). pose proof (Day_bounds (now + offsetMs cur)).
    unfold msPerDay in *. lia.
Qed.

End Active.

End MissionFacts.

(** ** The phases of a mission cycle *)

Module CycleFacts.
Import ESFacts DateFacts SortFacts ScanFacts ResolverFacts TableFacts MissionFacts.

(** The branches of the resolver on the compiled-in table. *)
Lemma resolve_table tza now :
  exists r, getSantaLocation tza TRACKING_STATIONS now = Normal r /\
    plannedRoute r = closedLoop stationsByTimezone /\
    localTime r =
      localTimeString (HourFromTime now) (MinFromTime now) (offset (location r)) /\
    ( (christmasNotStarted (stationLocalTime now easternmost) = true /\
       location r = NORTH_POLE /\ visitedLocations r = [NORTH_POLE_COORDS])
    \/ (christmasNotStarted (stationLocalTime now easternmost) = false /\
        exists k cur m,
          nth_error stationsByTimezone k = Some cur /\
          minutesAt now cur = Some m /\
          (forall j s' m', nth_error stationsByTimezone j = Some s' ->
                           minutesAt now s' = Some m' ->
                           m <= m' /\ ((j < k)%nat -> m < m')) /\
          location r = cur /\
          visitedLocations r =
            NORTH_POLE_COORDS :: map coordinates (firstn (S k) stationsByTimezone))
    \/ (christmasNotStarted (stationLocalTime now easternmost) = false /\
        (forall s, In s stationsByTimezone -> minutesAt now s = None) /\
        location r = NORTH_POLE /\
        visitedLocations r = closedLoop stationsByTimezone)).
Proof.
  exact (getSantaLocation_cases tza TRACKING_STATIONS now easternmost
           (tl stationsByTimezone) stationsByTimezone_first).
Qed.

(** A time value not more than 25 hours outside the range of dates and
    in the December of year [y] is a valid date of year [y]. *)
Lemma valid_december y L :
  Z.abs L <= maxTime + 90000000 ->
  christmasDay y - 30 <= Day L <= christmasDay y + 6 ->
  Z.abs L <= maxTime /\ YearFromTime L = y.
Proof.
  intros V D. pose proof (christmasDay_margin y) as [M1 M2].
  pose proof (Day_bounds L) as B. unfold maxTime, msPerDay in *.
  split; [lia|]. apply YearFromTime_near_christmas. lia.
Qed.

Lemma Day_christmas y L :
  christmasStart y <= L < christmasStart y + msPerDay <-> Day L = christmasDay y.
Proof.
  unfold christmasStart. pose proof (Day_bounds L). unfold msPerDay in *. lia.
Qed.

Section Cycle.
Variables (tza : Z -> Z) (y t : Z) (r : SantaLocation).
Hypothesis Hr : getSantaLocation tza TRACKING_STATIONS t = Normal r.

Lemma phase_pre :
  Z.abs t <= maxTime ->
  cycleStart y <= t < christmasStart y - 50400000 ->
  visitedLocations r = [NORTH_POLE_COORDS].
Proof.
  intros V [Hl Hu]. unfold cycleStart in Hl.
  assert (C : christmasNotStarted (stationLocalTime t easternmost) = true).
  { rewrite (stationLocalTime_table t _ easternmost_In), easternmost_offset.
    apply christmasNotStarted_true.
    pose proof (Day_bounds (t + 50400000)) as B. unfold christmasStart in *.
    assert (D : christmasDay y - 24 <= Day (t + 50400000) < christmasDay y)
      by (unfold msPerDay in *; lia).
    destruct (valid_december y (t + 50400000)) as (V' & EY);
      [unfold maxTime in *; lia|lia|].
    rewrite EY. auto. }
  destruct (resolve_table tza t) as (r' & Hr' & _ & _ & [(_ & _ & Hv)|[(C' & _)|(C' & _)]]);
    rewrite Hr in Hr'; injection Hr' as <-; congruence.
Qed.

Lemma phase_active :
  Z.abs t <= maxTime ->
  christmasStart y - 50400000 <= t < christmasStart y + msPerDay + 39600000 ->
  exists k cur m,
    (k < 29)%nat /\
    nth_error stationsByTimezone k = Some cur /\
    minutesAt t cur = Some m /\
    (forall j s' m', nth_error stationsByTimezone j = Some s' ->
                     minutesAt t s' = Some m' -> m <= m' /\ ((j < k)%nat -> m < m')) /\
    Day (t + offsetMs cur) = christmasDay y /\
    visitedLocations r =
      NORTH_POLE_COORDS :: map coordinates (firstn (S k) stationsByTimezone).
Proof.
  intros V [Hl Hu].
  destruct (station_in_window t (christmasStart y)) as (s & Hs & Hw); [lia|lia|].
  pose proof (table_offsets _ Hs) as (_ & Bs).
  pose proof (proj1 (Day_christmas y _) Hw) as Ds.
  destruct (valid_december y (t + offsetMs s)) as (Vs & Ys);
    [unfold maxTime in *; lia|lia|].
  assert (Ms : exists ms, minutesAt t s = Some ms).
  { eexists. apply (minutesAt_table t s _ Hs). rewrite Ys. auto. }
  destruct Ms as (ms & Ms).
  pose proof (candidate_not_pre t s ms Hs Ms) as C.
  destruct (resolve_table tza t) as (r' & Hr' & _ & _ & Cases).
  rewrite Hr in Hr'; injection Hr' as <-.
  destruct Cases as [(C' & _)|[(_ & k & cur & m & Hk & Hm & Hmin & _ & Hv)|(_ & Hn & _)]].
  - congruence.
  - exists k, cur, m.
    assert (k < 29)%nat.
    { rewrite <- stationsByTimezone_length. apply nth_error_Some. congruence. }
    repeat (split; [assumption|]). split; [|assumption].
    pose proof (nth_stationsByTimezone_In _ _ Hk) as Ic.
    pose proof (table_offsets _ Ic) as (_ & Bc).
    apply (minutesAt_table t cur m Ic) in Hm as (Vc & Dc & _).
    destruct (near_christmas _ (t + offsetMs s) Vc Dc) as (_ & EY & _); [lia|].
    rewrite Dc, <- EY, Ys. reflexivity.
  - rewrite Hn in Ms; [discriminate|].
    apply (proj2 (In_stationsByTimezone s)), Hs.
Qed.

Lemma phase_post :
  christmasStart y + msPerDay + 39600000 <= t < cycleStart (y + 1) ->
  postMission t /\ visitedLocations r = closedLoop stationsByTimezone.
Proof.
  intros [Hl Hu]. unfold cycleStart in Hu.
  assert (W : forall s, In s TRACKING_STATIONS ->
              christmasDay y < Day (t + offsetMs s) < christmasDay (y + 1) - 24).
  { intros s Hs. pose proof (table_offsets _ Hs) as (_ & Bs).
    pose proof (Day_bounds (t + offsetMs s)). unfold christmasStart, msPerDay in *. lia. }
  assert (Y : forall s Y', In s TRACKING_STATIONS ->
              ~ (christmasDay Y' - 24 <= Day (t + offsetMs s) <= christmasDay Y')).
  { intros s Y' Hs HY. specialize (W s Hs).
    destruct (Z.le_gt_cases Y' y) as [L|L].
    - apply christmasDay_mono in L. lia.
    - assert (L' : y + 1 <= Y') by lia. apply christmasDay_mono in L'. lia. }
  assert (N : forall s, In s TRACKING_STATIONS -> minutesAt t s = None).
  { intros s Hs. destruct (minutesAt t s) as [m|] eqn:E; [|reflexivity].
    apply (minutesAt_table t s m Hs) in E as (_ & D & _).
    exfalso. apply (Y s (YearFromTime (t + offsetMs s)) Hs). lia. }
  assert (C : christmasNotStarted (stationLocalTime t easternmost) = false).
  { rewrite (stationLocalTime_table t _ easternmost_In).
    destruct (christmasNotStarted (validDate (t + offsetMs easternmost))) eqn:E; [|reflexivity].
    apply christmasNotStarted_true in E as (_ & D).
    exfalso. apply (Y _ (YearFromTime (t + offsetMs easternmost)) easternmost_In). lia. }
  split.
  - split; [|exact C]. intros s Hs T. apply onTargetDay_minutesAt in T as [m T].
    rewrite (N s Hs) in T. discriminate.
  - destruct (resolve_table tza t) as (r' & Hr' & _ & _ & Cases).
    rewrite Hr in Hr'; injection Hr' as <-.
    destruct Cases as [(C' & _)|[(_ & k & cur & m & Hk & Hm & _)|(_ & _ & _ & Hv)]].
    + congruence.
    + rewrite (N cur) in Hm; [discriminate|]. eapply nth_stationsByTimezone_In, Hk.
    + exact Hv.
Qed.

(** In the post-mission branch, and only there, the list has the
    length of the closed loop. *)
Lemma post_length :
  (postMission t -> List.length (visitedLocations r) = List.length TRACKING_STATIONS + 2)%nat /\
  (~ postMission t -> List.length (visitedLocations r) < List.length TRACKING_STATIONS + 2)%nat.
Proof.
  change (List.length TRACKING_STATIONS) with 29%nat.
  destruct (resolve_table tza t) as (r' & Hr' & _ & _ & Cases).
  rewrite Hr in Hr'; injection Hr' as <-.
  destruct Cases as [(C' & _ & Hv)|[(_ & k & cur & m & Hk & Hm & _ & _ & Hv)|(C & Hn & _ & Hv)]].
  - split; [intros [_ C]; congruence|]. intros _. rewrite Hv. cbn. lia.
  - assert (k < 29)%nat.
    { rewrite <- stationsByTimezone_length. apply nth_error_Some. congruence. }
    split.
    + intros [N _]. exfalso. apply (N cur); [eapply nth_stationsByTimezone_In, Hk|].
      apply onTargetDay_minutesAt. eauto.
    + intros _. rewrite Hv. cbn [List.length]. rewrite length_map, length_firstn.
      rewrite stationsByTimezone_length. lia.
  - split.
    + intros _. rewrite Hv, closedLoop_length, stationsByTimezone_length. reflexivity.
    + intros N. exfalso. apply N. split; [|exact C]. intros s Hs T.
      apply onTargetDay_minutesAt in T as [m T].
      rewrite Hn in T; [discriminate|]. apply (proj2 (In_stationsByTimezone s)), Hs.
Qed.
End Cycle.

End CycleFacts.

Module CycleOrder.
Import ESFacts DateFacts TableFacts MissionFacts CycleFacts.

(** Within one December 25th the index of the current station never
    moves back east. *)
Lemma active_mono y t1 t2 k1 cur1 m1 k2 cur2 m2 :
  t1 <= t2 ->
  nth_error stationsByTimezone k1 = Some cur1 ->
  minutesAt t1 cur1 = Some m1 ->
  (forall j s' m', nth_error stationsByTimezone j = Some s' ->
                   minutesAt t1 s' = Some m' -> m1 <= m' /\ ((j < k1)%nat -> m1 < m')) ->
  Day (t1 + offsetMs cur1) = christmasDay y ->
  nth_error stationsByTimezone k2 = Some cur2 ->
  minutesAt t2 cur2 = Some m2 ->
  Day (t2 + offsetMs cur2) = christmasDay y ->
  (k1 <= k2)%nat.
Proof.
  intros Ht Hk1 Hm1 Hmin D1 Hk2 Hm2 D2.
  destruct (Nat.le_gt_cases k1 k2) as [L|L]; [exact L|exfalso].
  pose proof (nth_stationsByTimezone_In _ _ Hk1) as I1.
  pose proof (nth_stationsByTimezone_In _ _ Hk2) as I2.
  pose proof (stationsByTimezone_offsets k2 k1 cur2 cur1 ltac:(lia) Hk2 Hk1) as Ho.
  apply (minutesAt_table t1 cur1 m1 I1) in Hm1 as (V1 & _ & E1).
  apply (minutesAt_table t2 cur2 m2 I2) in Hm2 as (V2 & _ & _).
  assert (D : Day (t1 + offsetMs cur2) = christmasDay y).
  { pose proof (Day_bounds (t1 + offsetMs cur1)). pose proof (Day_bounds (t2 + offsetMs cur2)).
    pose proof (Day_bounds (t1 + offsetMs cur2)). unfold msPerDay in *. lia. }
  assert (Hs : minutesAt t1 cur2 =
               Some ((24 - HourFromTime (t1 + offsetMs cur2)) * 60
                     - MinFromTime (t1 + offsetMs cur2) + 1)).
  { apply (minutesAt_table t1 cur2 _ I2). split; [lia|]. split; [|reflexivity].
    rewrite (YearFromTime_near_christmas y); [exact D|lia]. }
  destruct (Hmin _ _ _ Hk2 Hs) as [_ Hlt]. specialize (Hlt L).
  pose proof (clock_mono (t1 + offsetMs cur1) (t1 + offsetMs cur2)) as C.
  rewrite D1, D in C. specialize (C eq_refl ltac:(lia)). lia.
Qed.

End CycleOrder.

(* ================================================================== *)
(** * Part III: the statements of the specification *)
(* ================================================================== *)

Import ESFacts DateFacts SortFacts ScanFacts ResolverFacts TableFacts.
Import MissionFacts CycleFacts CycleOrder.

(** ** Current station *)



(** ** Minutes remaining *)

(** C2, as the code has it.  A station is a candidate exactly while its
    local date is December 25th; at local time HH:MM of that day it
    reports (24 - HH) * 60 - MM + 1 minutes, a value between 2 (at 23:59)
    and 1441 (at 00:00).  At local 00:00 of December 26th, and all that
    day, it reports nothing: the value 1 is never produced. *)
Theorem minutes_remaining_range now s :
  (onTargetDay now s ->
   exists h mi,
     getUTCHours (stationLocalTime now s) = Some h /\
     getUTCMinutes (stationLocalTime now s) = Some mi /\
     0 <= h <= 23 /\ 0 <= mi <= 59 /\
     minutesAt now s = Some ((24 - h) * 60 - mi + 1)) /\
  (forall m, minutesAt now s = Some m ->
             onTargetDay now s /\ 2 <= m <= 1441 /\
             (m = 2 <-> getUTCHours (stationLocalTime now s) = Some 23 /\
                        getUTCMinutes (stationLocalTime now s) = Some 59) /\
             (m = 1441 <-> getUTCHours (stationLocalTime now s) = Some 0 /\
                           getUTCMinutes (stationLocalTime now s) = Some 0) /\
             exists h mi,
               getUTCHours (stationLocalTime now s) = Some h /\
               getUTCMinutes (stationLocalTime now s) = Some mi /\
               m = (24 - h) * 60 - mi + 1) /\
  minutesAt now s <> Some 1 /\
  (forall d, getUTCDate (stationLocalTime now s) = Some d -> d <> 25 ->
             minutesAt now s = None).
Proof.
  assert (V : forall m, minutesAt now s = Some m ->
              exists L, stationLocalTime now s = Some L /\
                        m = (24 - HourFromTime L) * 60 - MinFromTime L + 1).
  { intros m Hm. unfold minutesAt, minutesUntilMidnight, getUTCMonth, getUTCDate,
      getUTCHours, getUTCMinutes in Hm.
    destruct (stationLocalTime now s) as [L|]; cbn [option_map] in Hm; [|discriminate].
    destruct ((MonthFromTime L =? 11) && (DateFromTime L =? 25)); [|discriminate].
    exists L. split; [reflexivity|congruence]. }
  split; [|split; [|split]].
  - intros T. apply onTargetDay_minutesAt in T as [m Hm].
    destruct (V m Hm) as (L & EL & Em). rewrite Hm.
    unfold getUTCHours, getUTCMinutes. rewrite EL. cbn [option_map].
    exists (HourFromTime L), (MinFromTime L).
    pose proof (HourFromTime_range L). pose proof (MinFromTime_range L).
    repeat (split; [reflexivity || lia|]). congruence.
  - intros m Hm. split; [apply onTargetDay_minutesAt; eauto|].
    destruct (V m Hm) as (L & EL & Em).
    unfold getUTCHours, getUTCMinutes. rewrite EL. cbn [option_map].
    pose proof (HourFromTime_range L). pose proof (MinFromTime_range L).
    split; [lia|]. split; [|split].
    + split; [intros E; split; f_equal; lia|intros [[= Eh] [= Emi]]; lia].
    + split; [intros E; split; f_equal; lia|intros [[= Eh] [= Emi]]; lia].
    + exists (HourFromTime L), (MinFromTime L). auto.
  - intros Hm. destruct (V 1 Hm) as (L & _ & Em).
    pose proof (HourFromTime_range L). pose proof (MinFromTime_range L). lia.
  - intros d Hd Nd.
    unfold minutesAt, minutesUntilMidnight, getUTCMonth, getUTCDate,
      getUTCHours, getUTCMinutes in *.
    destruct (stationLocalTime now s) as [L|]; cbn [option_map] in *; [|reflexivity].
    injection Hd as <-.
    destruct (Z.eqb_spec (DateFromTime L) 25); [contradiction|].
    rewrite andb_false_r. reflexivity.
Qed.

(** On 26 December 2024 at 03:10 UTC, CARACAS (local 23:10) reports
    (24 - 23) * 60 - 10 + 1 = 51 minutes. *)
Lemma minutes_remaining_range_witness :
  let now := 1735182600000 in
  let caracas := nth 7 TRACKING_STATIONS NORTH_POLE in
  onTargetDay now caracas /\
  getUTCHours (stationLocalTime now caracas) = Some 23 /\
  getUTCMinutes (stationLocalTime now caracas) = Some 10 /\
  minutesAt now caracas = Some ((24 - 23) * 60 - 10 + 1) /\
  (onTargetDay now caracas /\ 2 <= 51 <= 1441 /\
   (51 = 2 <-> getUTCHours (stationLocalTime now caracas) = Some 23 /\
               getUTCMinutes (stationLocalTime now caracas) = Some 59) /\
   (51 = 1441 <-> getUTCHours (stationLocalTime now caracas) = Some 0 /\
                  getUTCMinutes (stationLocalTime now caracas) = Some 0) /\
   exists h mi,
     getUTCHours (stationLocalTime now caracas) = Some h /\
     getUTCMinutes (stationLocalTime now caracas) = Some mi /\
     51 = (24 - h) * 60 - mi + 1).
Proof.
  cbv zeta.
  assert (T : onTargetDay 1735182600000 (nth 7 TRACKING_STATIONS NORTH_POLE))
    by (vm_compute; split; reflexivity).
  assert (Hh : getUTCHours
                 (stationLocalTime 1735182600000 (nth 7 TRACKING_STATIONS NORTH_POLE))
               = Some 23) by (vm_compute; reflexivity).
  assert (Hmi : getUTCMinutes
                  (stationLocalTime 1735182600000 (nth 7 TRACKING_STATIONS NORTH_POLE))
                = Some 10) by (vm_compute; reflexivity).
  pose proof (minutes_remaining_range 1735182600000
                (nth 7 TRACKING_STATIONS NORTH_POLE)) as (A & B & _).
  destruct (A T) as (h & mi & Eh & Emi & _ & _ & Em).
  assert (h = 23) as -> by congruence. assert (mi = 10) as -> by congruence.
  split; [exact T|]. split; [exact Hh|]. split; [exact Hmi|]. split; [exact Em|].
  exact (B 51 Em).
Defined.

(** At 2024-12-26T00:00:00Z LONDON (UTC+0) stands at local 00:00 of
    December 26th and is not a candidate; it does not report 1. *)
Lemma grace_minute_counterexample :
  let now := 1735171200000 in
  let london := nth 10 TRACKING_STATIONS NORTH_POLE in
  name london = "LONDON"%string /\
  getUTCMonth (stationLocalTime now london) = Some 11 /\
  getUTCDate (stationLocalTime now london) = Some 26 /\
  getUTCHours (stationLocalTime now london) = Some 0 /\
  getUTCMinutes (stationLocalTime now london) = Some 0 /\
  minutesAt now london = None /\
  minutesAt now london <> Some 1.
Proof.
  vm_compute. repeat split; discriminate.
Qed.

(** ** Empty table *)

(** C3, as the code has it.  On the empty table the resolver throws on
    every timestamp.  On any other table it returns, and when no station
    is on December 25th the current location is the home base, with
    either the home base alone (pre-mission) or the full closed loop
    (post-mission) as visited locations. *)
Theorem empty_table_throws tza stations now :
  match stations with
  | [] => getSantaLocation tza stations now = Throw TypeError
  | _ :: _ =>
      exists r first,
        getSantaLocation tza stations now = Normal r /\
        hd_error (sortStations stations) = Some first /\
        ((forall s, In s stations -> ~ onTargetDay now s) ->
         location r = NORTH_POLE /\
         visitedLocations r =
           if christmasNotStarted (stationLocalTime now first)
           then [NORTH_POLE_COORDS]
           else closedLoop (sortStations stations))
  end.
Proof.
  destruct stations as [|a l]; [reflexivity|].
  destruct (sortStations_nonempty (a :: l)) as (s0 & l0 & E); [discriminate|].
  destruct (getSantaLocation_cases tza (a :: l) now s0 l0 E) as (r & Hr & _ & _ & Cases).
  exists r, s0. split; [exact Hr|]. split; [rewrite E; reflexivity|]. intros Hn.
  destruct Cases as [(C & Hl & Hv)|[(_ & k & cur & m & Hk & Hm & _)|(C & _ & Hl & Hv)]];
    try (rewrite C; auto).
  exfalso. apply (Hn cur).
  - apply (proj1 (sortStations_In cur (a :: l))). eapply nth_error_In, Hk.
  - apply onTargetDay_minutesAt. eauto.
Qed.

(** The empty table, and a table of one station in mid-January. *)
Lemma empty_table_throws_witness :
  let paris := mkLocation "PARIS" 1 "EUROPE" (48.8566, 2.3522)%Q in
  getSantaLocation (fun _ => 0) [] 1736942400000 = Throw TypeError /\
  (forall s, In s [paris] -> ~ onTargetDay 1736942400000 s) /\
  exists r first,
    getSantaLocation (fun _ => 0) [paris] 1736942400000 = Normal r /\
    hd_error (sortStations [paris]) = Some first /\
    location r = NORTH_POLE /\
    visitedLocations r =
      if christmasNotStarted (stationLocalTime 1736942400000 first)
      then [NORTH_POLE_COORDS]
      else closedLoop (sortStations [paris]).
Proof.
  cbv zeta.
  assert (N : forall s, In s [mkLocation "PARIS" 1 "EUROPE" (48.8566, 2.3522)%Q] ->
                        ~ onTargetDay 1736942400000 s).
  { intros s [<-|[]] [H _]. vm_compute in H. discriminate H. }
  split; [exact (empty_table_throws (fun _ => 0) [] 1736942400000)|].
  split; [exact N|].
  destruct (empty_table_throws (fun _ => 0)
              [mkLocation "PARIS" 1 "EUROPE" (48.8566, 2.3522)%Q] 1736942400000)
    as (r & first & Hr & Hf & Hc).
  exists r, first. split; [exact Hr|]. split; [exact Hf|]. exact (Hc N).
Defined.

Lemma empty_table_counterexample :
  ~ exists r, getSantaLocation (fun _ => 0) [] 1735171200000 = Normal r /\
              location r = NORTH_POLE /\
              visitedLocations r = [NORTH_POLE_COORDS].
Proof.
  intros (r & Hr & _). discriminate Hr.
Qed.

(** ** Local time label *)

(** C4.  At UTC 00:00 and offset -5 the label is 19:00, as the
    specification says.  But the minutes are [Math.floor(totalMinutes % 60)]
    with no correction for a negative remainder, unlike the hours: on
    26 December 2024 at 03:10 UTC the current station is CARACAS (UTC-4),
    the local time there is 23:10, and the label is 23:-50. *)
Theorem local_time_label_negative_minutes tza :
  localTimeString 0 0 (-5) = "19:00"%string /\
  exists r, getSantaLocation tza TRACKING_STATIONS 1735182600000 = Normal r /\
            name (location r) = "CARACAS"%string /\
            offset (location r) = (-4)%Q /\
            HourFromTime 1735182600000 = 3 /\ MinFromTime 1735182600000 = 10 /\
            localTime r = "23:-50"%string.
Proof.
  split; [vm_compute; reflexivity|].
  pose proof (getSantaLocation_host tza (fun _ => 0) TRACKING_STATIONS 1735182600000) as H.
  destruct (getSantaLocation tza TRACKING_STATIONS 1735182600000) as [r|e].
  - exists r. split; [reflexivity|]. revert H. vm_compute.
    intros (-> & -> & _). repeat split.
  - revert H. vm_compute. tauto.
Qed.

(** ** Planned route *)

(** C5.  On every table with at least one station and at every
    timestamp, the planned route is the home base, the stations in
    east-to-west order, and the home base again: stationCount + 2
    points.  The east-to-west order is the rearrangement of the table in
    which offsets never increase and stations of equal offset keep
    their table order. *)
Theorem planned_route_closed_loop tza stations now :
  stations <> [] ->
  exists r, getSantaLocation tza stations now = Normal r /\
    plannedRoute r =
      NORTH_POLE_COORDS :: map coordinates (sortStations stations) ++ [NORTH_POLE_COORDS] /\
    hd_error (plannedRoute r) = Some NORTH_POLE_COORDS /\
    last (plannedRoute r) (0, 0)%Q = NORTH_POLE_COORDS /\
    List.length (plannedRoute r) = (List.length stations + 2)%nat /\
    Permutation stations (sortStations stations) /\
    StronglySorted descending (sortStations stations) /\
    (forall q, filter (sameOffset q) (sortStations stations)
               = filter (sameOffset q) stations).
Proof.
  intros H. destruct (sortStations_nonempty _ H) as (s & l & E).
  destruct (getSantaLocation_cases tza stations now s l E) as (r & Hr & Hp & _).
  exists r. split; [exact Hr|]. rewrite Hp. split; [reflexivity|]. split; [reflexivity|].
  split; [|split; [|split; [|split]]].
  - unfold closedLoop.
    change (NORTH_POLE_COORDS :: map coordinates (sortStations stations) ++ [NORTH_POLE_COORDS])
      with ((NORTH_POLE_COORDS :: map coordinates (sortStations stations)) ++ [NORTH_POLE_COORDS]).
    apply last_last.
  - rewrite closedLoop_length, sortStations_length. reflexivity.
  - apply sortStations_perm.
  - apply sortStations_sorted.
  - intros q. apply sortStations_stable.
Qed.

(** The compiled-in table, which is listed west to east: its route runs
    the other way, from KIRITIMATI (UTC+14) to MIDWAY (UTC-11). *)
Lemma planned_route_closed_loop_witness :
  TRACKING_STATIONS <> [] /\
  exists r, getSantaLocation (fun _ => 0) TRACKING_STATIONS 1735182600000 = Normal r /\
    plannedRoute r =
      NORTH_POLE_COORDS :: map coordinates (sortStations TRACKING_STATIONS)
                        ++ [NORTH_POLE_COORDS] /\
    hd_error (plannedRoute r) = Some NORTH_POLE_COORDS /\
    last (plannedRoute r) (0, 0)%Q = NORTH_POLE_COORDS /\
    List.length (plannedRoute r) = (List.length TRACKING_STATIONS + 2)%nat /\
    Permutation TRACKING_STATIONS (sortStations TRACKING_STATIONS) /\
    StronglySorted descending (sortStations TRACKING_STATIONS) /\
    (forall q, filter (sameOffset q) (sortStations TRACKING_STATIONS)
               = filter (sameOffset q) TRACKING_STATIONS).
Proof.
  assert (H : TRACKING_STATIONS <> []) by discriminate.
  split; [exact H|].
  exact (planned_route_closed_loop (fun _ => 0) TRACKING_STATIONS 1735182600000 H).
Defined.

(** ** Visited locations *)

(** C6.  For two timestamps [t1 <= t2] of one mission cycle, the list
    of visited locations at [t1] is not longer than the one at [t2]; in
    the post-mission branch, and only there, its length is
    stationCount + 2. *)
Theorem visited_length_monotone tza y t1 t2 r1 r2 :
  Z.abs t1 <= maxTime -> Z.abs t2 <= maxTime ->
  inCycle y t1 -> inCycle y t2 -> t1 <= t2 ->
  getSantaLocation tza TRACKING_STATIONS t1 = Normal r1 ->
  getSantaLocation tza TRACKING_STATIONS t2 = Normal r2 ->
  (List.length (visitedLocations r1) <= List.length (visitedLocations r2))%nat /\
  (postMission t2 ->
   List.length (visitedLocations r2) = List.length TRACKING_STATIONS + 2)%nat /\
  (~ postMission t2 ->
   List.length (visitedLocations r2) < List.length TRACKING_STATIONS + 2)%nat.
Proof.
  intros V1 V2 [C1l C1u] [C2l C2u] Ht H1 H2.
  split; [|exact (post_length tza t2 r2 H2)].
  assert (Lact : forall t r k, getSantaLocation tza TRACKING_STATIONS t = Normal r ->
            (k < 29)%nat ->
            visitedLocations r =
              NORTH_POLE_COORDS :: map coordinates (firstn (S k) stationsByTimezone) ->
            List.length (visitedLocations r) = (k + 2)%nat).
  { intros t r k _ Hk ->. cbn [List.length]. rewrite length_map, length_firstn.
    rewrite stationsByTimezone_length. lia. }
  assert (Lpost : forall r, visitedLocations r = closedLoop stationsByTimezone ->
            List.length (visitedLocations r) = 31%nat).
  { intros r ->. rewrite closedLoop_length, stationsByTimezone_length. reflexivity. }
  destruct (Z.lt_ge_cases t1 (christmasStart y - 50400000)) as [P1|P1].
  { (* t1 before the first station's December 25th *)
    rewrite (phase_pre tza y t1 r1 H1 V1 (conj C1l P1)). cbn [List.length].
    destruct (Z.lt_ge_cases t2 (christmasStart y - 50400000)) as [P2|P2].
    - rewrite (phase_pre tza y t2 r2 H2 V2 (conj C2l P2)). cbn. lia.
    - destruct (Z.lt_ge_cases t2 (christmasStart y + msPerDay + 39600000)) as [A2|A2].
      + destruct (phase_active tza y t2 r2 H2 V2 (conj P2 A2))
          as (k & cur & m & Hk & _ & _ & _ & _ & Hv).
        rewrite (Lact t2 r2 k H2 Hk Hv). lia.
      + destruct (phase_post tza y t2 r2 H2 (conj A2 C2u)) as [_ Hv].
        rewrite (Lpost r2 Hv). lia. }
  destruct (Z.lt_ge_cases t1 (christmasStart y + msPerDay + 39600000)) as [A1|A1].
  { (* t1 while some station is on December 25th *)
    destruct (phase_active tza y t1 r1 H1 V1 (conj P1 A1))
      as (k1 & cur1 & m1 & Hk1 & Hn1 & Hm1 & Hmin1 & D1 & Hv1).
    rewrite (Lact t1 r1 k1 H1 Hk1 Hv1).
    destruct (Z.lt_ge_cases t2 (christmasStart y + msPerDay + 39600000)) as [A2|A2].
    - assert (P2 : christmasStart y - 50400000 <= t2) by lia.
      destruct (phase_active tza y t2 r2 H2 V2 (conj P2 A2))
        as (k2 & cur2 & m2 & Hk2 & Hn2 & Hm2 & _ & D2 & Hv2).
      rewrite (Lact t2 r2 k2 H2 Hk2 Hv2).
      pose proof (active_mono y t1 t2 k1 cur1 m1 k2 cur2 m2 Ht Hn1 Hm1 Hmin1 D1 Hn2 Hm2 D2).
      lia.
    - destruct (phase_post tza y t2 r2 H2 (conj A2 C2u)) as [_ Hv].
      rewrite (Lpost r2 Hv). lia. }
  (* t1 after the last station's December 25th *)
  destruct (phase_post tza y t1 r1 H1 (conj A1 C1u)) as [_ Hv1].
  assert (A2 : christmasStart y + msPerDay + 39600000 <= t2) by lia.
  destruct (phase_post tza y t2 r2 H2 (conj A2 C2u)) as [_ Hv2].
  rewrite (Lpost r1 Hv1), (Lpost r2 Hv2). lia.
Qed.

(** The cycle of 2024, at 24 December 10:00 UTC (KIRITIMATI enters
    December 25th) and at 26 December 03:10 UTC. *)
Lemma visited_length_monotone_witness :
  exists r1 r2,
    getSantaLocation (fun _ => 0) TRACKING_STATIONS 1735034400000 = Normal r1 /\
    getSantaLocation (fun _ => 0) TRACKING_STATIONS 1735182600000 = Normal r2 /\
    inCycle 2024 1735034400000 /\ inCycle 2024 1735182600000 /\
    (List.length (visitedLocations r1) <= List.length (visitedLocations r2))%nat /\
    (postMission 1735182600000 ->
     List.length (visitedLocations r2) = List.length TRACKING_STATIONS + 2)%nat /\
    (~ postMission 1735182600000 ->
     List.length (visitedLocations r2) < List.length TRACKING_STATIONS + 2)%nat.
Proof.
  assert (C1 : inCycle 2024 1735034400000) by (vm_compute; split; [discriminate|reflexivity]).
  assert (C2 : inCycle 2024 1735182600000) by (vm_compute; split; [discriminate|reflexivity]).
  eexists. eexists.
  split; [vm_compute; reflexivity|]. split; [vm_compute; reflexivity|].
  split; [exact C1|]. split; [exact C2|].
  apply (visited_length_monotone (fun _ => 0) 2024 1735034400000 1735182600000).
  - unfold maxTime. lia.
  - unfold maxTime. lia.
  - exact C1.
  - exact C2.
  - lia.
  - vm_compute. reflexivity.
  - vm_compute. reflexivity.
Defined.



(** ** Message generator *)

Lemma pick_In a r :
  a <> [] -> (0 <= r)%Q -> (r < 1)%Q -> exists msg, pick a r = Some msg /\ In msg a.
Proof.
  intros Ha H0 H1. unfold pick, arrayGet.
  set (n := Z.of_nat (List.length a)).
  assert (Hn : 0 < n) by (destruct a; [congruence|cbn in n; lia]).
  assert (Hq : (0 < inject_Z n)%Q) by (change 0%Q with (inject_Z 0); rewrite <- Zlt_Qlt; exact Hn).
  assert (Lo : 0 <= Qfloor (r * inject_Z n)).
  { change 0 with (Qfloor 0). apply Qfloor_resp_le. apply Qmult_le_0_compat; lra. }
  assert (Hi : Qfloor (r * inject_Z n) < n).
  { rewrite Zlt_Qlt. eapply Qle_lt_trans; [apply Qfloor_le|].
    setoid_replace (inject_Z n) with (1 * inject_Z n)%Q at 2 by ring.
    apply Qmult_lt_compat_r; assumption. }
  destruct (Z.ltb_spec (Qfloor (r * inject_Z n)) 0); [lia|].
  destruct (nth_error a (Z.to_nat (Qfloor (r * inject_Z n)))) as [msg|] eqn:E.
  - exists msg. split; [reflexivity|]. eapply nth_error_In, E.
  - exfalso. apply nth_error_None in E. lia.
Qed.

Lemma stats_not_generic speed delivered :
  ~ In (velocityMessage speed) GENERIC_LOGS /\ ~ In (payloadMessage delivered) GENERIC_LOGS.
Proof.
  unfold velocityMessage, payloadMessage, GENERIC_LOGS. cbn [append In].
  split; intros H; repeat (destruct H as [H|H]; [discriminate H|]); exact H.
Qed.

(** A region name found on [Object.prototype] instead of in
    [REGION_LOGS] yields [undefined] in the region band. *)
Lemma inherited_region_undefined locationName region speed delivered r1 r2 :
  locationName <> "NORTH POLE"%string ->
  objectGet REGION_LOGS region = Inherited ->
  (lit_0_4 <= r1)%Q -> (r1 < lit_0_7)%Q ->
  generateIntelMessage locationName region speed delivered r1 r2 = Normal None.
Proof.
  intros Hn Hr H4 H7. unfold generateIntelMessage.
  apply String.eqb_neq in Hn. rewrite Hn.
  apply Qle_bool_iff in H4. rewrite H4, Hr. cbn [negb truthy andb].
  destruct (Qle_bool lit_0_7 r1) eqn:E; [|reflexivity].
  apply Qle_bool_iff in E. lra.
Qed.

(** C8, as the code has it.  Away from the home base and for a region
    that [REGION_LOGS] has no message set for (and that is not a name
    inherited from [Object.prototype]), a draw from 0.4 up to 0.85
    yields one of the two statistics messages, chosen by the second
    draw, and never a generic one: the region band falls through to the
    statistics band.  The generic set is used from 0.85 on. *)
Theorem absent_region_falls_to_stats locationName region speed delivered r1 r2 :
  locationName <> "NORTH POLE"%string ->
  objectGet REGION_LOGS region = Absent ->
  (lit_0_4 <= r1)%Q ->
  ((r1 < lit_0_85)%Q ->
   let msg := if Qle_bool r2 lit_0_5 then payloadMessage delivered
              else velocityMessage speed in
   generateIntelMessage locationName region speed delivered r1 r2 = Normal (Some msg) /\
   ~ In msg GENERIC_LOGS) /\
  ((lit_0_85 <= r1)%Q -> (0 <= r2)%Q -> (r2 < 1)%Q ->
   exists msg,
     generateIntelMessage locationName region speed delivered r1 r2 = Normal (Some msg) /\
     In msg GENERIC_LOGS).
Proof.
  intros Hn Hr H4.
  assert (G : generateIntelMessage locationName region speed delivered r1 r2 =
              if negb (Qle_bool lit_0_85 r1) then
                if negb (Qle_bool r2 lit_0_5)
                then Normal (Some (velocityMessage speed))
                else Normal (Some (payloadMessage delivered))
              else Normal (pick GENERIC_LOGS r2)).
  { unfold generateIntelMessage. apply String.eqb_neq in Hn. rewrite Hn.
    apply Qle_bool_iff in H4. rewrite H4, Hr. cbn [negb truthy].
    rewrite andb_false_r. reflexivity. }
  rewrite G. split.
  - intros H85. cbv zeta.
    destruct (Qle_bool lit_0_85 r1) eqn:E; [apply Qle_bool_iff in E; lra|].
    cbn [negb]. destruct (stats_not_generic speed delivered) as [Nv Np].
    destruct (Qle_bool r2 lit_0_5); cbn [negb]; auto.
  - intros H85 H0 H1. apply Qle_bool_iff in H85. rewrite H85. cbn [negb].
    destruct (pick_In GENERIC_LOGS r2) as (msg & -> & Hin); try assumption; [discriminate|].
    eauto.
Qed.

Lemma absent_region_falls_to_stats_witness :
  ("PARIS" <> "NORTH POLE")%string /\
  objectGet REGION_LOGS "ATLANTIS" = Absent /\
  (lit_0_4 <= 0.5)%Q /\
  ((0.5 < lit_0_85)%Q ->
   let msg := if Qle_bool 0.3 lit_0_5 then payloadMessage 4500000000
              else velocityMessage 4.2 in
   generateIntelMessage "PARIS" "ATLANTIS" 4.2 4500000000 0.5 0.3 = Normal (Some msg) /\
   ~ In msg GENERIC_LOGS) /\
  ((lit_0_85 <= 0.5)%Q -> (0 <= 0.3)%Q -> (0.3 < 1)%Q ->
   exists msg,
     generateIntelMessage "PARIS" "ATLANTIS" 4.2 4500000000 0.5 0.3 = Normal (Some msg) /\
     In msg GENERIC_LOGS).
Proof.
  assert (H1 : ("PARIS" <> "NORTH POLE")%string) by discriminate.
  assert (H2 : objectGet REGION_LOGS "ATLANTIS" = Absent) by (vm_compute; reflexivity).
  assert (H3 : (lit_0_4 <= 0.5)%Q) by (vm_compute; discriminate).
  split; [exact H1|]. split; [exact H2|]. split; [exact H3|].
  exact (absent_region_falls_to_stats "PARIS" "ATLANTIS" 4.2 4500000000 0.5 0.3 H1 H2 H3).
Defined.

(** With the unknown region ATLANTIS and a first draw of 0.5, inside the
    region band, the message is the payload line, which is not one of
    the generic messages; with a first draw of 0.9 it is a generic one. *)
Lemma region_band_fallback_counterexample :
  objectGet REGION_LOGS "ATLANTIS" = Absent /\
  (lit_0_4 <= 0.5)%Q /\ (0.5 < lit_0_7)%Q /\
  generateIntelMessage "PARIS" "ATLANTIS" 4.2 4500000000 0.5 0.3
  = Normal (Some "PAYLOAD UPDATE: 4.500B UNITS CONFIRMED"%string) /\
  ~ In "PAYLOAD UPDATE: 4.500B UNITS CONFIRMED"%string GENERIC_LOGS /\
  generateIntelMessage "PARIS" "ATLANTIS" 4.2 4500000000 0.9 0.3
  = Normal (Some "GROUND SENSORS DETECT HIGH VELOCITY OBJECT"%string).
Proof.
  split; [vm_compute; reflexivity|]. split; [vm_compute; discriminate|].
  split; [vm_compute; reflexivity|]. split; [vm_compute; reflexivity|].
  split; [|vm_compute; reflexivity].
  unfold GENERIC_LOGS. cbn [In].
  intros H; repeat (destruct H as [H|H]; [discriminate H|]); exact H.
Qed.

(** ** Delivered count *)

Lemma roundToDouble_exact z : Z.abs z < 2 ^ 53 -> roundToDouble z = z.
Proof.
  intros H. unfold roundToDouble. destruct (Z.ltb_spec (Z.abs z) (2 ^ 53)); [reflexivity|lia].
Qed.

(** C9.  [calculateGifts] is 4,500,000,000 plus fifteen times the
    clock reading modulo 10,000,000, with no rounding anywhere; it
    depends on the reading alone and repeats every 10,000 seconds, so
    nothing accumulates from call to call. *)
Theorem calculateGifts_exact now :
  calculateGifts now = 4500000000 + Z.rem now 10000000 * 15 /\
  (0 <= now ->
   calculateGifts now = 4500000000 + (now mod 10000000) * 15 /\
   4500000000 <= calculateGifts now < 4650000000 /\
   forall k, 0 <= k -> calculateGifts (now + 10000000 * k) = calculateGifts now).
Proof.
  assert (E : forall t, calculateGifts t = 4500000000 + Z.rem t 10000000 * 15).
  { intros t. unfold calculateGifts, numAdd, numMul, numRem.
    pose proof (Z.rem_bound_abs t 10000000 ltac:(lia)) as B.
    assert (P : 2 ^ 53 = 9007199254740992) by reflexivity.
    rewrite (roundToDouble_exact (Z.rem t 10000000 * 15)) by lia.
    apply roundToDouble_exact. lia. }
  split; [apply E|]. intros H.
  assert (M : forall t, 0 <= t -> Z.rem t 10000000 = t mod 10000000)
    by (intros t Ht; apply Z.rem_mod_nonneg; lia).
  pose proof (Z.mod_pos_bound now 10000000 ltac:(lia)).
  rewrite E, (M now H). split; [reflexivity|]. split; [lia|].
  intros k Hk. rewrite E, M by lia. f_equal. f_equal.
  rewrite Z.mul_comm. apply Z_mod_plus_full.
Qed.

Lemma calculateGifts_exact_witness :
  0 <= 1735210799999 /\
  calculateGifts 1735210799999 = 4500000000 + (1735210799999 mod 10000000) * 15 /\
  4500000000 <= calculateGifts 1735210799999 < 4650000000 /\
  forall k, 0 <= k ->
            calculateGifts (1735210799999 + 10000000 * k) = calculateGifts 1735210799999.
Proof.
  assert (H : 0 <= 1735210799999) by lia.
  split; [exact H|]. exact (proj2 (calculateGifts_exact 1735210799999) H).
Defined.

(** ** Regions of the table *)

(** C10.  Every region of the station table, and the home base's
    ARCTIC, is a key of [REGION_LOGS] with a non-empty message set; so
    for every location the resolver returns, a draw in the region band
    is answered from that location's region set and the fall-through
    is never taken. *)
Theorem table_regions_have_logs :
  (forall s, In s (NORTH_POLE :: TRACKING_STATIONS) ->
             exists msgs, objectGet REGION_LOGS (region s) = Own msgs /\ msgs <> []) /\
  (forall tza now speed delivered r1 r2,
      exists r msgs,
        getSantaLocation tza TRACKING_STATIONS now = Normal r /\
        objectGet REGION_LOGS (region (location r)) = Own msgs /\ msgs <> [] /\
        (name (location r) <> "NORTH POLE"%string ->
         (lit_0_4 <= r1)%Q -> (r1 < lit_0_7)%Q ->
         generateIntelMessage (name (location r)) (region (location r))
           speed delivered r1 r2 = Normal (pick msgs r2))).
Proof.
  assert (F : forall s, In s (NORTH_POLE :: TRACKING_STATIONS) ->
              exists msgs, objectGet REGION_LOGS (region s) = Own msgs /\ msgs <> []).
  { apply Forall_forall. unfold TRACKING_STATIONS.
    repeat (apply Forall_cons;
            [eexists; split; [vm_compute; reflexivity|discriminate]|]).
    apply Forall_nil. }
  split; [exact F|]. intros tza now speed delivered r1 r2.
  destruct (resolve_table tza now) as (r & Hr & _ & _ & Cases).
  assert (Hin : In (location r) (NORTH_POLE :: TRACKING_STATIONS)).
  { destruct Cases as [(_ & -> & _)|[(_ & k & cur & m & Hk & _ & _ & -> & _)|(_ & _ & -> & _)]].
    - left. reflexivity.
    - right. eapply nth_stationsByTimezone_In, Hk.
    - left. reflexivity. }
  destruct (F _ Hin) as (msgs & Hm & Hne).
  exists r, msgs. repeat (split; [assumption|]).
  intros Hn H4 H7. unfold generateIntelMessage.
  apply String.eqb_neq in Hn. rewrite Hn.
  apply Qle_bool_iff in H4. rewrite H4, Hm. cbn [negb truthy].
  destruct (Qle_bool lit_0_7 r1) eqn:E; [apply Qle_bool_iff in E; lra|]. reflexivity.
Qed.

(** On 26 December 2024 at 03:10 UTC over CARACAS, a first draw of 0.5
    is answered from the S. AMERICA set. *)
Lemma table_regions_have_logs_witness :
  exists r msgs,
    getSantaLocation (fun _ => 0) TRACKING_STATIONS 1735182600000 = Normal r /\
    name (location r) <> "NORTH POLE"%string /\
    (lit_0_4 <= 0.5)%Q /\ (0.5 < lit_0_7)%Q /\
    objectGet REGION_LOGS (region (location r)) = Own msgs /\
    generateIntelMessage (name (location r)) (region (location r))
      4.2 4500000000 0.5 0.3 = Normal (pick msgs 0.3).
Proof.
  destruct (proj2 table_regions_have_logs (fun _ => 0) 1735182600000
              4.2%Q 4500000000%Q 0.5%Q 0.3%Q) as (r & msgs & Hr & Hm & _ & Hg).
  assert (Hn : name (location r) <> "NORTH POLE"%string).
  { pose proof Hr as Hr'. vm_compute in Hr'. injection Hr' as <-. discriminate. }
  assert (H4 : (lit_0_4 <= 0.5)%Q) by (vm_compute; discriminate).
  assert (H7 : (0.5 < lit_0_7)%Q) by (vm_compute; reflexivity).
  exists r, msgs. repeat (split; [assumption|]). exact (Hg Hn H4 H7).
Defined.

(** ** Scenarios *)

(** A table holding LONDON alone, at 23:30 of its December 25th: LONDON
    is current with 31 minutes left and has been visited. *)
Example scenario_single_london :
  let london := mkLocation "LONDON" 0 "EUROPE" (51.5, -0.13)%Q in
  let now := 1735169400000 in
  minutesAt now london = Some 31 /\
  exists r, getSantaLocation (fun _ => 0) [london] now = Normal r /\
            location r = london /\ localTime r = "23:30"%string /\
            visitedLocations r = [NORTH_POLE_COORDS; coordinates london].
Proof.
  cbv zeta. split; [vm_compute; reflexivity|].
  eexists. split; [vm_compute; reflexivity|]. repeat split.
Qed.

(** The bounds of a cycle matter: from the end of November (still the
    post-mission branch of the year before) to December 10th (the
    pre-mission branch) the list shrinks from the closed loop to the
    home base. *)
Example cycle_boundary_drop :
  exists r1 r2,
    getSantaLocation (fun _ => 0) TRACKING_STATIONS 1732924800000 = Normal r1 /\
    getSantaLocation (fun _ => 0) TRACKING_STATIONS 1733788800000 = Normal r2 /\
    inCycle 2023 1732924800000 /\ inCycle 2024 1733788800000 /\
    List.length (visitedLocations r1) = 31%nat /\
    List.length (visitedLocations r2) = 1%nat.
Proof.
  eexists. eexists.
  split; [vm_compute; reflexivity|]. split; [vm_compute; reflexivity|].
  split; [vm_compute; split; [discriminate|reflexivity]|].
  split; [vm_compute; split; [discriminate|reflexivity]|].
  split; reflexivity.
Qed.

(* ================================================================== *)
(** * Part IV: further properties of the code *)
(* ================================================================== *)

(** ** The resolver on any station table *)

(** X1.  The east-to-west order of any table is a rearrangement of the
    table with offsets never increasing, in which stations of equal
    offset keep their table order. *)
Theorem east_to_west_order stations :
  Permutation stations (sortStations stations) /\
  StronglySorted descending (sortStations stations) /\
  (forall q, filter (sameOffset q) (sortStations stations)
             = filter (sameOffset q) stations).
Proof.
  split; [apply sortStations_perm|]. split; [apply sortStations_sorted|].
  intros q. apply sortStations_stable.
Qed.

(** X2.  Whatever the table and the clock, the visited locations start
    at the home base and are an initial part of the planned route. *)
Theorem visited_prefix_of_route tza stations now r :
  getSantaLocation tza stations now = Normal r ->
  hd_error (visitedLocations r) = Some NORTH_POLE_COORDS /\
  exists rest, plannedRoute r = visitedLocations r ++ rest.
Proof.
  intros Hr. destruct stations as [|a l]; [discriminate Hr|].
  destruct (sortStations_nonempty (a :: l)) as (s0 & l0 & E); [discriminate|].
  destruct (getSantaLocation_cases tza (a :: l) now s0 l0 E) as (r' & Hr' & Hp & _ & Cases).
  rewrite Hr in Hr'. injection Hr' as <-. rewrite Hp. unfold closedLoop.
  destruct Cases as [(_ & _ & ->)|[(_ & k & cur & m & _ & _ & _ & _ & ->)|(_ & _ & _ & ->)]].
  - split; [reflexivity|]. eexists. reflexivity.
  - split; [reflexivity|].
    exists (map coordinates (skipn (S k) (sortStations (a :: l))) ++ [NORTH_POLE_COORDS]).
    rewrite <- (firstn_skipn (S k) (sortStations (a :: l))) at 1.
    rewrite map_app, <- app_assoc. reflexivity.
  - split; [reflexivity|]. exists []. unfold closedLoop. rewrite app_nil_r. reflexivity.
Qed.

Lemma visited_prefix_of_route_witness :
  exists r,
    getSantaLocation (fun _ => 0) TRACKING_STATIONS 1735182600000 = Normal r /\
    hd_error (visitedLocations r) = Some NORTH_POLE_COORDS /\
    exists rest, plannedRoute r = visitedLocations r ++ rest.
Proof.
  eexists. split; [vm_compute; reflexivity|].
  apply (visited_prefix_of_route (fun _ => 0) TRACKING_STATIONS 1735182600000).
  vm_compute. reflexivity.
Defined.

(** X3.  The visited locations always end at the coordinates of the
    current location: at the current station while one is on December
    25th, at the home base otherwise. *)
Theorem visited_ends_at_current tza stations now r :
  getSantaLocation tza stations now = Normal r ->
  last (visitedLocations r) (0, 0)%Q = coordinates (location r) /\
  In (location r) (NORTH_POLE :: stations).
Proof.
  intros Hr. destruct stations as [|a l]; [discriminate Hr|].
  destruct (sortStations_nonempty (a :: l)) as (s0 & l0 & E); [discriminate|].
  destruct (getSantaLocation_cases tza (a :: l) now s0 l0 E) as (r' & Hr' & _ & _ & Cases).
  rewrite Hr in Hr'. injection Hr' as <-.
  destruct Cases as [(_ & -> & ->)|[(_ & k & cur & m & Hk & _ & _ & -> & ->)|(_ & _ & -> & ->)]].
  - split; [reflexivity|left; reflexivity].
  - split.
    + rewrite (firstn_S_snoc _ _ _ Hk), map_app.
      change (NORTH_POLE_COORDS :: ?x ++ ?y) with ((NORTH_POLE_COORDS :: x) ++ y).
      apply last_last.
    + right. apply (proj1 (sortStations_In cur (a :: l))). eapply nth_error_In, Hk.
  - split; [|left; reflexivity]. unfold closedLoop.
    change (NORTH_POLE_COORDS :: ?x ++ ?y) with ((NORTH_POLE_COORDS :: x) ++ y).
    apply last_last.
Qed.

Lemma visited_ends_at_current_witness :
  exists r,
    getSantaLocation (fun _ => 0) TRACKING_STATIONS 1735182600000 = Normal r /\
    last (visitedLocations r) (0, 0)%Q = coordinates (location r) /\
    In (location r) (NORTH_POLE :: TRACKING_STATIONS).
Proof.
  eexists. split; [vm_compute; reflexivity|].
  apply (visited_ends_at_current (fun _ => 0) TRACKING_STATIONS 1735182600000).
  vm_compute. reflexivity.
Defined.

(** ** The resolver on the compiled-in table *)

Module CurrentFacts.

Lemma NORTH_POLE_not_station : ~ In NORTH_POLE TRACKING_STATIONS.
Proof.
  intros H. apply (in_map name) in H. vm_compute in H.
  repeat (destruct H as [H|H]; [discriminate H|]). exact H.
Qed.

(** The loop reads a station through its offset only. *)
Lemma minutesAt_offset now a b : offset a = offset b -> minutesAt now a = minutesAt now b.
Proof. intros E. unfold minutesAt, stationLocalTime. rewrite E. reflexivity. Qed.

Lemma linked_adjacent D l : forall i a b,
  linked D l = true -> nth_error l i = Some a -> nth_error l (S i) = Some b -> a - b <= D.
Proof.
  induction l as [|x l IH]; intros i a b HL Hi Hj; [destruct i; discriminate|].
  destruct l as [|y l]; [destruct i; discriminate|].
  cbn [linked] in HL. apply andb_prop in HL as [Hg HL]. apply Z.leb_le in Hg.
  destruct i as [|i].
  - cbn in Hi, Hj. injection Hi as <-. injection Hj as <-. exact Hg.
  - exact (IH i a b HL Hi Hj).
Qed.

(** Neighbours in the east-to-west order are at most two hours apart. *)
Lemma neighbours_two_hours i a b :
  nth_error stationsByTimezone i = Some a ->
  nth_error stationsByTimezone (S i) = Some b ->
  offsetMs a - offsetMs b <= 7200000.
Proof.
  intros Ha Hb.
  assert (HL : linked 7200000 (map offsetMs stationsByTimezone) = true)
    by (vm_compute; reflexivity).
  apply (linked_adjacent _ _ i _ _ HL).
  - rewrite nth_error_map, Ha. reflexivity.
  - rewrite nth_error_map, Hb. reflexivity.
Qed.

(** Ten o'clock at night or later. *)
Lemma late_clock L :
  msPerDay * (Day L + 1) - 7200000 <= L ->
  1320 <= HourFromTime L * 60 + MinFromTime L.
Proof.
  unfold Day, HourFromTime, MinFromTime, msPerDay, msPerHour, msPerMinute.
  intros H. Z.div_mod_to_equations. lia.
Qed.

End CurrentFacts.

Import CurrentFacts.

(** X4.  The current location is the home base exactly when no station
    of the table is on December 25th. *)
Theorem home_base_iff_no_station tza now r :
  getSantaLocation tza TRACKING_STATIONS now = Normal r ->
  (location r = NORTH_POLE <->
   forall s, In s TRACKING_STATIONS -> ~ onTargetDay now s).
Proof.
  intros Hr. destruct (resolve_table tza now) as (r' & Hr' & _ & _ & Cases).
  rewrite Hr in Hr'. injection Hr' as <-.
  destruct Cases as [(C & Hl & _)|[(_ & k & cur & m & Hk & Hm & _ & Hl & _)|(_ & Hn & Hl & _)]].
  - split; [intros _|intros _; exact Hl]. intros s Hs T.
    apply onTargetDay_minutesAt in T as [ms Ms].
    pose proof (candidate_not_pre now s ms Hs Ms). congruence.
  - pose proof (nth_stationsByTimezone_In _ _ Hk) as Ic. split.
    + intros E. exfalso. apply NORTH_POLE_not_station. congruence.
    + intros N. exfalso. apply (N cur Ic). apply onTargetDay_minutesAt. eauto.
  - split; [intros _|intros _; exact Hl]. intros s Hs T.
    apply onTargetDay_minutesAt in T as [ms Ms].
    rewrite Hn in Ms; [discriminate|]. apply (proj2 (In_stationsByTimezone s)), Hs.
Qed.

Lemma home_base_iff_no_station_witness :
  exists r,
    getSantaLocation (fun _ => 0) TRACKING_STATIONS 1735182600000 = Normal r /\
    (location r = NORTH_POLE <->
     forall s, In s TRACKING_STATIONS -> ~ onTargetDay 1735182600000 s).
Proof.
  eexists. split; [vm_compute; reflexivity|].
  apply (home_base_iff_no_station (fun _ => 0) 1735182600000).
  vm_compute. reflexivity.
Defined.

(** X5.  NAIROBI, NEW DELHI and JAKARTA are never the current location:
    each shares its offset with a station placed before it (MOSCOW,
    MUMBAI, BANGKOK), and the loop replaces its choice only for strictly
    fewer minutes. *)
Theorem tied_stations_never_current tza now r :
  getSantaLocation tza TRACKING_STATIONS now = Normal r ->
  name (location r) <> "NAIROBI"%string /\
  name (location r) <> "NEW DELHI"%string /\
  name (location r) <> "JAKARTA"%string.
Proof.
  intros Hr. destruct (resolve_table tza now) as (r' & Hr' & _ & _ & Cases).
  rewrite Hr in Hr'. injection Hr' as <-.
  destruct Cases as [(_ & -> & _)|[(_ & k & cur & m & Hk & Hm & Hmin & -> & _)|(_ & _ & -> & _)]];
    [repeat split; discriminate| |repeat split; discriminate].
  assert (T : forall i a, (i < k)%nat -> nth_error stationsByTimezone i = Some a ->
                          offset a = offset cur -> False).
  { intros i a Hi Ha E. rewrite <- (minutesAt_offset now a cur E) in Hm.
    destruct (Hmin _ _ _ Ha Hm) as [_ Hlt]. specialize (Hlt Hi). lia. }
  assert (Hlen : (k < 29)%nat).
  { rewrite <- stationsByTimezone_length. apply nth_error_Some. congruence. }
  do 29 (destruct k as [|k];
         [vm_compute in Hk; injection Hk as <-;
          first [ repeat split; discriminate
                | exfalso; eapply (T 14%nat); [lia|vm_compute; reflexivity|reflexivity]
                | exfalso; eapply (T 10%nat); [lia|vm_compute; reflexivity|reflexivity]
                | exfalso; eapply (T 7%nat); [lia|vm_compute; reflexivity|reflexivity] ]|]).
  lia.
Qed.

Lemma tied_stations_never_current_witness :
  exists r,
    getSantaLocation (fun _ => 0) TRACKING_STATIONS 1735159500000 = Normal r /\
    name (location r) = "MOSCOW"%string /\
    name (location r) <> "NAIROBI"%string /\
    name (location r) <> "NEW DELHI"%string /\
    name (location r) <> "JAKARTA"%string.
Proof.
  eexists. split; [vm_compute; reflexivity|]. split; [reflexivity|].
  apply (tied_stations_never_current (fun _ => 0) 1735159500000).
  vm_compute. reflexivity.
Defined.

(** X6.  Every current station other than the easternmost one is in
    the last two hours of its December 25th: it took over when its
    eastern neighbour, at most two hours ahead, left that day, so it
    reports between 2 and 121 minutes. *)
Theorem later_stations_last_two_hours tza now r :
  getSantaLocation tza TRACKING_STATIONS now = Normal r ->
  location r <> NORTH_POLE -> location r <> easternmost ->
  exists m, minutesAt now (location r) = Some m /\ 2 <= m <= 121.
Proof.
  intros Hr Hnp He. destruct (resolve_table tza now) as (r' & Hr' & _ & _ & Cases).
  rewrite Hr in Hr'. injection Hr' as <-.
  destruct Cases as [(_ & Hl & _)|[(_ & k & cur & m & Hk & Hm & Hmin & Hl & _)|(_ & _ & Hl & _)]];
    try contradiction.
  rewrite Hl in *. exists m. split; [exact Hm|].
  destruct k as [|k].
  { exfalso. apply He. rewrite stationsByTimezone_first in Hk.
    change (Some easternmost = Some cur) in Hk. congruence. }
  destruct (nth_error stationsByTimezone k) as [p|] eqn:Hp.
  2:{ apply nth_error_None in Hp.
      assert (S k < List.length stationsByTimezone)%nat by (apply nth_error_Some; congruence).
      lia. }
  pose proof (earlier_past now (S k) cur m Hk Hm Hmin k p ltac:(lia) Hp) as P.
  pose proof (neighbours_two_hours k p cur Hp Hk) as G.
  pose proof (nth_stationsByTimezone_In _ _ Hk) as Ic.
  pose proof (nth_stationsByTimezone_In _ _ Hp) as Ip.
  pose proof (table_offsets _ Ic) as (_ & Bc).
  pose proof (table_offsets _ Ip) as (_ & Bp).
  apply (pastTargetDay_table now p Ip) in P as (_ & P).
  apply (minutesAt_table now cur m Ic) in Hm as (V & D & Em).
  destruct (near_christmas _ (now + offsetMs p) V D) as (_ & EY & _); [lia|].
  rewrite EY, <- D in P.
  pose proof (Day_bounds (now + offsetMs p)) as B.
  pose proof (late_clock (now + offsetMs cur)) as L.
  pose proof (HourFromTime_range (now + offsetMs cur)).
  pose proof (MinFromTime_range (now + offsetMs cur)).
  unfold msPerDay in *. lia.
Qed.

(** On 26 December 2024 at 03:10 UTC, CARACAS reports 51 minutes. *)
Lemma later_stations_last_two_hours_witness :
  exists r,
    getSantaLocation (fun _ => 0) TRACKING_STATIONS 1735182600000 = Normal r /\
    location r <> NORTH_POLE /\ location r <> easternmost /\
    exists m, minutesAt 1735182600000 (location r) = Some m /\ 2 <= m <= 121.
Proof.
  eexists. split; [vm_compute; reflexivity|].
  assert (H1 : nth 7 TRACKING_STATIONS NORTH_POLE <> NORTH_POLE) by discriminate.
  assert (H2 : nth 7 TRACKING_STATIONS NORTH_POLE <> easternmost)
    by (vm_compute; discriminate).
  split; [exact H1|]. split; [exact H2|].
  apply (later_stations_last_two_hours (fun _ => 0) 1735182600000);
    [vm_compute; reflexivity|exact H1|exact H2].
Defined.

(** X7.  In the cycle of year [y] the courier is away from the home
    base exactly from 10:00 UTC of December 24th (midnight at UTC+14)
    until 11:00 UTC of December 26th (midnight at UTC-11). *)
Theorem mission_window tza y t r :
  Z.abs t <= maxTime -> inCycle y t ->
  getSantaLocation tza TRACKING_STATIONS t = Normal r ->
  (location r <> NORTH_POLE <->
   christmasStart y - 50400000 <= t < christmasStart y + msPerDay + 39600000).
Proof.
  intros V [Cl Cu] Hr.
  destruct (resolve_table tza t) as (r' & Hr' & _ & _ & Cases).
  rewrite Hr in Hr'. injection Hr' as <-.
  assert (Hact : forall k cur, nth_error stationsByTimezone k = Some cur ->
                               cur <> NORTH_POLE).
  { intros k cur Hk E. apply NORTH_POLE_not_station. rewrite <- E.
    eapply nth_stationsByTimezone_In, Hk. }
  destruct (Z.lt_ge_cases t (christmasStart y - 50400000)) as [P|P].
  { pose proof (phase_pre tza y t r Hr V (conj Cl P)) as Hv.
    split; [|lia]. intros N. exfalso. apply N.
    destruct Cases as [(_ & Hl & _)|[(_ & k & cur & m & _ & _ & _ & _ & Hv')|(_ & _ & Hl & _)]];
      try exact Hl.
    rewrite Hv in Hv'. destruct stationsByTimezone eqn:E; [|discriminate Hv'].
    pose proof stationsByTimezone_length as Len. rewrite E in Len. discriminate Len. }
  destruct (Z.lt_ge_cases t (christmasStart y + msPerDay + 39600000)) as [A|A].
  { destruct (phase_active tza y t r Hr V (conj P A))
      as (k & cur & m & Hk & Hn & Hm & _ & _ & _).
    split; [lia|]. intros _.
    destruct Cases as [(C & _)|[(_ & k' & cur' & m' & Hk' & _ & _ & Hl & _)|(_ & Hnone & _)]].
    - pose proof (candidate_not_pre t cur m (nth_stationsByTimezone_In _ _ Hn) Hm). congruence.
    - rewrite Hl. eapply Hact, Hk'.
    - rewrite Hnone in Hm; [discriminate|]. eapply nth_error_In, Hn. }
  destruct (phase_post tza y t r Hr (conj A Cu)) as [[Hnone _] _].
  split; [|lia]. intros N. exfalso. apply N.
  destruct Cases as [(_ & Hl & _)|[(_ & k & cur & m & Hk & Hm & _)|(_ & _ & Hl & _)]];
    try exact Hl.
  exfalso. apply (Hnone cur); [eapply nth_stationsByTimezone_In, Hk|].
  apply onTargetDay_minutesAt. eauto.
Qed.

Lemma mission_window_witness :
  exists r,
    getSantaLocation (fun _ => 0) TRACKING_STATIONS 1735182600000 = Normal r /\
    inCycle 2024 1735182600000 /\
    (location r <> NORTH_POLE <->
     christmasStart 2024 - 50400000 <= 1735182600000
     < christmasStart 2024 + msPerDay + 39600000).
Proof.
  assert (C : inCycle 2024 1735182600000) by (vm_compute; split; [discriminate|reflexivity]).
  eexists. split; [vm_compute; reflexivity|]. split; [exact C|].
  apply (mission_window (fun _ => 0) 2024 1735182600000);
    [unfold maxTime; lia|exact C|vm_compute; reflexivity].
Defined.

(** X8.  During the 24 hours of December 25th at UTC+14 the current
    location is the easternmost station, KIRITIMATI, and the visited
    locations are the home base and that station. *)
Theorem easternmost_current_all_day tza y t r :
  Z.abs t <= maxTime ->
  christmasStart y - 50400000 <= t < christmasStart y + msPerDay - 50400000 ->
  getSantaLocation tza TRACKING_STATIONS t = Normal r ->
  location r = easternmost /\
  visitedLocations r = [NORTH_POLE_COORDS; coordinates easternmost].
Proof.
  intros V [Wl Wu] Hr.
  assert (H0 : nth_error stationsByTimezone 0 = Some easternmost)
    by (rewrite stationsByTimezone_first; reflexivity).
  pose proof easternmost_In as I0. pose proof easternmost_offset as O0.
  assert (D0 : Day (t + offsetMs easternmost) = christmasDay y).
  { apply Day_christmas. rewrite O0. lia. }
  destruct (valid_december y (t + offsetMs easternmost)) as (V0 & Y0);
    [rewrite O0; unfold maxTime in *; lia|lia|].
  assert (M0 : minutesAt t easternmost =
               Some ((24 - HourFromTime (t + offsetMs easternmost)) * 60
                     - MinFromTime (t + offsetMs easternmost) + 1)).
  { apply (minutesAt_table t easternmost _ I0). rewrite Y0. auto. }
  destruct (resolve_table tza t) as (r' & Hr' & _ & _ & Cases).
  rewrite Hr in Hr'. injection Hr' as <-.
  destruct Cases as [(C & _)|[(_ & k & cur & m & Hk & Hm & Hmin & Hl & Hv)|(_ & Hnone & _)]].
  - pose proof (candidate_not_pre t easternmost _ I0 M0). congruence.
  - assert (k = 0)%nat as ->.
    { destruct k as [|k]; [reflexivity|exfalso].
      destruct (Hmin _ _ _ H0 M0) as [_ Hlt]. specialize (Hlt ltac:(lia)).
      pose proof (nth_stationsByTimezone_In _ _ Hk) as Ic.
      pose proof (stationsByTimezone_offsets 0 (S k) _ _ ltac:(lia) H0 Hk) as Ho.
      pose proof (table_offsets _ Ic) as (_ & Bc).
      apply (minutesAt_table t cur m Ic) in Hm as (Vc & Dc & Em).
      destruct (near_christmas _ (t + offsetMs cur) V0) as (_ & EY & _);
        [rewrite Y0; exact D0|lia|].
      rewrite EY, Y0 in Dc.
      pose proof (clock_mono (t + offsetMs cur) (t + offsetMs easternmost)) as CM.
      rewrite Dc, D0 in CM. specialize (CM eq_refl ltac:(lia)). lia. }
    rewrite H0 in Hk. injection Hk as <-. split; [exact Hl|].
    rewrite Hv, stationsByTimezone_first. reflexivity.
  - rewrite Hnone in M0; [discriminate|]. eapply nth_error_In, H0.
Qed.

Lemma easternmost_current_all_day_witness :
  exists r,
    getSantaLocation (fun _ => 0) TRACKING_STATIONS 1735034400000 = Normal r /\
    christmasStart 2024 - 50400000 <= 1735034400000
    < christmasStart 2024 + msPerDay - 50400000 /\
    location r = easternmost /\
    visitedLocations r = [NORTH_POLE_COORDS; coordinates easternmost].
Proof.
  assert (W : christmasStart 2024 - 50400000 <= 1735034400000
              < christmasStart 2024 + msPerDay - 50400000)
    by (vm_compute; split; [discriminate|reflexivity]).
  eexists. split; [vm_compute; reflexivity|]. split; [exact W|].
  apply (easternmost_current_all_day (fun _ => 0) 2024 1735034400000);
    [unfold maxTime; lia|exact W|vm_compute; reflexivity].
Defined.

(** ** The gate of the application *)

Module GateFacts.

Lemma hour_bounds L :
  (10 <= HourFromTime L <-> msPerDay * Day L + 36000000 <= L) /\
  (HourFromTime L < 12 <-> L < msPerDay * Day L + 43200000).
Proof.
  unfold Day, HourFromTime, msPerDay, msPerHour. Z.div_mod_to_equations. lia.
Qed.

(** The three tests of the gate, in day numbers. *)
Lemma gate_days t :
  App_isChristmas t = true <->
  (Day t = christmasDay (YearFromTime t) \/
   (Day t = christmasDay (YearFromTime t) - 1 /\ 10 <= HourFromTime t) \/
   (Day t = christmasDay (YearFromTime t) + 1 /\ HourFromTime t < 12)).
Proof.
  unfold App_isChristmas.
  pose proof (MonthFromTime_december t) as M.
  destruct (Z.eqb_spec (MonthFromTime t) 11) as [E|E]; cbn [andb].
  - rewrite (DateFromTime_december _ E). apply M in E.
    repeat match goal with
           | |- context [?a =? ?b] => destruct (Z.eqb_spec a b); cbn [andb]
           | |- context [?a <=? ?b] => destruct (Z.leb_spec a b); cbn [andb]
           | |- context [?a <? ?b] => destruct (Z.ltb_spec a b); cbn [andb]
           end; split; intros; try reflexivity; try discriminate; lia.
  - split; [discriminate|]. intros H. exfalso. apply E, M. lia.
Qed.

Lemma gate_open_elim t :
  App_isChristmas t = true ->
  christmasStart (YearFromTime t) - 50400000 <= t
  < christmasStart (YearFromTime t) + 129600000.
Proof.
  intros H. apply gate_days in H. pose proof (hour_bounds t) as [H10 H12].
  pose proof (Day_bounds t) as B. unfold christmasStart, msPerDay in *. lia.
Qed.

Lemma gate_open_intro y t :
  christmasStart y - 50400000 <= t < christmasStart y + 129600000 ->
  App_isChristmas t = true /\ YearFromTime t = y.
Proof.
  intros H. pose proof (hour_bounds t) as [H10 H12]. pose proof (Day_bounds t) as B.
  assert (D : christmasDay y - 1 <= Day t <= christmasDay y + 1)
    by (unfold christmasStart, msPerDay in *; lia).
  assert (Y : YearFromTime t = y) by (apply YearFromTime_near_christmas; lia).
  split; [|exact Y]. apply gate_days. rewrite Y.
  unfold christmasStart, msPerDay in *. lia.
Qed.

End GateFacts.

Import GateFacts.

(** X9.  The gate is open exactly from 10:00 UTC of December 24th until
    12:00 UTC of December 26th, 50 hours, of any year. *)
Theorem App_gate_window t :
  App_isChristmas t = true <->
  exists y, christmasStart y - 50400000 <= t < christmasStart y + 129600000.
Proof.
  split.
  - intros H. exists (YearFromTime t). apply gate_open_elim, H.
  - intros [y H]. apply (gate_open_intro y t H).
Qed.

(** X10.  Whenever a station of the table is on December 25th the gate
    is open: the tracking loop is never switched off during the
    mission. *)
Theorem mission_inside_gate now s :
  In s TRACKING_STATIONS -> onTargetDay now s -> App_isChristmas now = true.
Proof.
  intros Hs T. apply onTargetDay_minutesAt in T as [m Hm].
  apply (minutesAt_table now s m Hs) in Hm as (_ & D & _).
  pose proof (table_offsets s Hs) as (_ & Bs).
  apply Day_christmas in D.
  apply (gate_open_intro (YearFromTime (now + offsetMs s)) now).
  unfold msPerDay in *. lia.
Qed.

Lemma mission_inside_gate_witness :
  In (nth 7 TRACKING_STATIONS NORTH_POLE) TRACKING_STATIONS /\
  onTargetDay 1735182600000 (nth 7 TRACKING_STATIONS NORTH_POLE) /\
  App_isChristmas 1735182600000 = true.
Proof.
  assert (H1 : In (nth 7 TRACKING_STATIONS NORTH_POLE) TRACKING_STATIONS)
    by (do 7 right; left; reflexivity).
  assert (H2 : onTargetDay 1735182600000 (nth 7 TRACKING_STATIONS NORTH_POLE))
    by (vm_compute; split; reflexivity).
  split; [exact H1|]. split; [exact H2|].
  exact (mission_inside_gate 1735182600000 _ H1 H2).
Defined.

(** X11.  While the gate is open the resolver is never in its
    pre-mission branch: the visited locations hold at least the home
    base and one station. *)
Theorem gate_excludes_pre_mission tza now r :
  Z.abs now <= maxTime -> App_isChristmas now = true ->
  getSantaLocation tza TRACKING_STATIONS now = Normal r ->
  christmasNotStarted (stationLocalTime now easternmost) = false /\
  (2 <= List.length (visitedLocations r))%nat.
Proof.
  intros V G Hr. apply gate_open_elim in G. set (y := YearFromTime now) in *.
  assert (C : christmasNotStarted (stationLocalTime now easternmost) = false).
  { rewrite (stationLocalTime_table now _ easternmost_In), easternmost_offset.
    destruct (christmasNotStarted (validDate (now + 50400000))) eqn:E; [|reflexivity].
    apply christmasNotStarted_true in E as (_ & D).
    pose proof (Day_bounds (now + 50400000)) as B.
    assert (R : christmasDay y <= Day (now + 50400000) <= christmasDay y + 2)
      by (unfold christmasStart, msPerDay in *; lia).
    destruct (valid_december y (now + 50400000)) as (_ & EY);
      [unfold maxTime in *; lia|lia|].
    rewrite EY in D. lia. }
  split; [exact C|].
  destruct (resolve_table tza now) as (r' & Hr' & _ & _ & Cases).
  rewrite Hr in Hr'. injection Hr' as <-.
  destruct Cases as [(C' & _)|[(_ & k & cur & m & _ & _ & _ & _ & ->)|(_ & _ & _ & ->)]].
  - congruence.
  - cbn [List.length]. rewrite length_map, length_firstn, stationsByTimezone_length. lia.
  - rewrite closedLoop_length, stationsByTimezone_length. lia.
Qed.

Lemma gate_excludes_pre_mission_witness :
  exists r,
    getSantaLocation (fun _ => 0) TRACKING_STATIONS 1735034400000 = Normal r /\
    App_isChristmas 1735034400000 = true /\
    christmasNotStarted (stationLocalTime 1735034400000 easternmost) = false /\
    (2 <= List.length (visitedLocations r))%nat.
Proof.
  assert (G : App_isChristmas 1735034400000 = true) by (vm_compute; reflexivity).
  eexists. split; [vm_compute; reflexivity|]. split; [exact G|].
  apply (gate_excludes_pre_mission (fun _ => 0) 1735034400000);
    [unfold maxTime; lia|exact G|vm_compute; reflexivity].
Defined.

(** X12.  In its last hour, from 11:00 to 12:00 UTC of December 26th,
    the gate is still open although the mission is over: no station of
    the table has offset -12, the resolver is in its post-mission
    branch and shows the home base with the full closed loop. *)
Theorem gate_last_hour tza y now r :
  christmasStart y + msPerDay + 39600000 <= now < christmasStart y + 129600000 ->
  getSantaLocation tza TRACKING_STATIONS now = Normal r ->
  App_isChristmas now = true /\ postMission now /\
  location r = NORTH_POLE /\
  visitedLocations r = closedLoop stationsByTimezone.
Proof.
  intros [Wl Wu] Hr.
  split; [apply (gate_open_intro y now); unfold msPerDay in *; lia|].
  pose proof (christmasDay_succ y) as S.
  assert (Cu : now < cycleStart (y + 1))
    by (unfold cycleStart, christmasStart, msPerDay in *; lia).
  destruct (phase_post tza y now r Hr (conj Wl Cu)) as [P Hv].
  split; [exact P|]. split; [|exact Hv].
  destruct (resolve_table tza now) as (r' & Hr' & _ & _ & Cases).
  rewrite Hr in Hr'. injection Hr' as <-.
  destruct P as [Hnone C].
  destruct Cases as [(C' & _)|[(_ & k & cur & m & Hk & Hm & _)|(_ & _ & Hl & _)]].
  - congruence.
  - exfalso. apply (Hnone cur); [eapply nth_stationsByTimezone_In, Hk|].
    apply onTargetDay_minutesAt. eauto.
  - exact Hl.
Qed.

Lemma gate_last_hour_witness :
  exists r,
    getSantaLocation (fun _ => 0) TRACKING_STATIONS 1735212600000 = Normal r /\
    christmasStart 2024 + msPerDay + 39600000 <= 1735212600000
    < christmasStart 2024 + 129600000 /\
    App_isChristmas 1735212600000 = true /\ postMission 1735212600000 /\
    location r = NORTH_POLE /\
    visitedLocations r = closedLoop stationsByTimezone.
Proof.
  assert (W : christmasStart 2024 + msPerDay + 39600000 <= 1735212600000
              < christmasStart 2024 + 129600000)
    by (vm_compute; split; [discriminate|reflexivity]).
  eexists. split; [vm_compute; reflexivity|]. split; [exact W|].
  apply (gate_last_hour (fun _ => 0) 2024 1735212600000);
    [exact W|vm_compute; reflexivity].
Defined.

(** ** The local time label *)

Module LabelFacts.

Lemma Qtrunc_comp x y : (x == y)%Q -> Qtrunc x = Qtrunc y.
Proof.
  intros E. unfold Qtrunc.
  rewrite (Qleb_comp _ _ (Qeq_refl 0) _ _ E), (Qfloor_comp _ _ E), (Qceiling_comp _ _ E).
  reflexivity.
Qed.

(** Truncated division of integers, computed on rationals. *)
Lemma Qtrunc_div n d : 0 < d -> Qtrunc (inject_Z n / inject_Z d) = Z.quot n d.
Proof.
  intros Hd. unfold Qtrunc.
  assert (Hq : (0 < inject_Z d)%Q) by (change 0%Q with (inject_Z 0); rewrite <- Zlt_Qlt; exact Hd).
  destruct (Z.le_gt_cases 0 n) as [Hn|Hn].
  - assert (P : (0 <= inject_Z n / inject_Z d)%Q).
    { apply Qle_shift_div_l; [exact Hq|]. rewrite Qmult_0_l.
      change 0%Q with (inject_Z 0). rewrite <- Zle_Qle. exact Hn. }
    apply Qle_bool_iff in P. rewrite P, <- Zdiv_Qdiv.
    symmetry. apply Z.quot_div_nonneg; lia.
  - assert (P : Qle_bool 0 (inject_Z n / inject_Z d) = false).
    { destruct (Qle_bool 0 (inject_Z n / inject_Z d)) eqn:E; [|reflexivity].
      apply Qle_bool_iff in E. exfalso.
      assert (E' : (0 * inject_Z d <= inject_Z n)%Q).
      { apply (Qmult_le_r _ _ (inject_Z d)) in E; [|exact Hq].
        setoid_replace (inject_Z n / inject_Z d * inject_Z d)%Q with (inject_Z n) in E
          by (field; intros Z0; rewrite Z0 in Hq; apply (Qlt_irrefl 0), Hq).
        exact E. }
      rewrite Qmult_0_l in E'. change 0%Q with (inject_Z 0) in E'.
      rewrite <- Zle_Qle in E'. lia. }
    rewrite P. unfold Qceiling.
    assert (O : (- (inject_Z n / inject_Z d) == inject_Z (- n) / inject_Z d)%Q).
    { rewrite inject_Z_opp. field. intros Z0. rewrite Z0 in Hq. apply (Qlt_irrefl 0), Hq. }
    rewrite (Qfloor_comp _ _ O), <- Zdiv_Qdiv.
    rewrite <- (Z.opp_involutive n) at 2. rewrite Z.quot_opp_l by lia.
    f_equal. symmetry. apply Z.quot_div_nonneg; lia.
Qed.

Lemma Qrem_integral a T d :
  (a == inject_Z T)%Q -> 0 < d ->
  (Qrem a (inject_Z d) == inject_Z (Z.rem T d))%Q.
Proof.
  intros E Hd. unfold Qrem.
  assert (E' : (a / inject_Z d == inject_Z T / inject_Z d)%Q) by (rewrite E; reflexivity).
  rewrite (Qtrunc_comp _ _ E'), Qtrunc_div by exact Hd.
  rewrite E. pose proof (Z.quot_rem' T d) as QR.
  cbv [Qeq Qminus Qplus Qopp Qmult inject_Z Qnum Qden]. cbn [Pos.mul]. lia.
Qed.

Lemma hour_field a T :
  (a == inject_Z T)%Q ->
  Z.rem (Qfloor (Qrem (a / 60) 24 + 24)) 24 = (T / 60) mod 24.
Proof.
  intros E. unfold Qrem.
  assert (E1 : (a / 60 / 24 == inject_Z T / inject_Z 1440)%Q).
  { rewrite E. change (inject_Z 1440) with 1440%Q. field. }
  rewrite (Qtrunc_comp _ _ E1), Qtrunc_div by lia.
  pose proof (Z.quot_rem' T 1440) as QR.
  assert (E2 : (a / 60 - 24 * inject_Z (Z.quot T 1440) + 24
                == inject_Z (Z.rem T 1440 + 1440) / inject_Z 60)%Q).
  { rewrite E.
    replace (Z.rem T 1440 + 1440) with (T + (-1440) * Z.quot T 1440 + 1440) by lia.
    rewrite !inject_Z_plus, inject_Z_mult.
    change (inject_Z 1440) with 1440%Q. change (inject_Z (-1440)) with (-1440)%Q.
    change (inject_Z 60) with 60%Q. field. }
  rewrite (Qfloor_comp _ _ E2), <- Zdiv_Qdiv.
  Z.to_euclidean_division_equations. lia.
Qed.

End LabelFacts.

Import LabelFacts.

(** X13.  For an offset of whole minutes, with [T] the UTC minutes of
    the day plus the offset in minutes: the hour field of the label is
    always the hour of the local wall clock, [floor(T / 60) mod 24]; the
    minute field is the remainder of [T] by 60 with the sign of [T], so
    it is the minute of the wall clock exactly when [T] is not negative
    or is a multiple of 60. *)
Theorem local_time_fields h mi q om :
  (q * 60 == inject_Z om)%Q ->
  let T := h * 60 + mi + om in
  localTimeString h mi q =
    (padStart (toString ((T / 60) mod 24)) 2 "0" ++ ":" ++
     padStart (toString (Z.rem T 60)) 2 "0")%string /\
  (Z.rem T 60 = T mod 60 <-> 0 <= T \/ T mod 60 = 0).
Proof.
  intros H T.
  assert (E : (inject_Z (h * 60) + inject_Z mi + q * 60 == inject_Z T)%Q).
  { rewrite H, <- !inject_Z_plus. reflexivity. }
  split.
  - unfold localTimeString. rewrite (hour_field _ T E).
    pose proof (Qrem_integral _ T 60 E ltac:(lia)) as R.
    change (inject_Z 60) with 60%Q in R.
    rewrite (Qfloor_comp _ _ R), Qfloor_Z. reflexivity.
  - Z.to_euclidean_division_equations. lia.
Qed.

(** CARACAS (UTC-4) at 03:10 UTC: hour 23, minute field -50. *)
Lemma local_time_fields_witness :
  ((-4) * 60 == inject_Z (-240))%Q /\
  localTimeString 3 10 (-4) =
    (padStart (toString (((3 * 60 + 10 + -240) / 60) mod 24)) 2 "0" ++ ":" ++
     padStart (toString (Z.rem (3 * 60 + 10 + -240) 60)) 2 "0")%string /\
  (Z.rem (3 * 60 + 10 + -240) 60 = (3 * 60 + 10 + -240) mod 60 <->
   0 <= 3 * 60 + 10 + -240 \/ (3 * 60 + 10 + -240) mod 60 = 0).
Proof.
  assert (H : ((-4) * 60 == inject_Z (-240))%Q) by (vm_compute; reflexivity).
  split; [exact H|]. exact (local_time_fields 3 10 (-4)%Q (-240) H).
Defined.

(** ** The delivered count *)

Module GiftFacts.

Lemma calculateGifts_value t : calculateGifts t = 4500000000 + Z.rem t 10000000 * 15.
Proof.
  unfold calculateGifts, numAdd, numMul, numRem.
  pose proof (Z.rem_bound_abs t 10000000 ltac:(lia)) as B.
  assert (P : 2 ^ 53 = 9007199254740992) by reflexivity.
  rewrite (roundToDouble_exact (Z.rem t 10000000 * 15)) by lia.
  apply roundToDouble_exact. lia.
Qed.

End GiftFacts.

(** X14.  From 1970 on the count is a sawtooth: it grows by 15 with
    every millisecond and falls back from 4,649,999,985 to the base
    4,500,000,000 each time the clock passes a multiple of 10,000,000
    ms; it is not a running total. *)
Theorem gifts_sawtooth now :
  0 <= now ->
  (now mod 10000000 < 9999999 -> calculateGifts (now + 1) = calculateGifts now + 15) /\
  (now mod 10000000 = 9999999 ->
   calculateGifts now = 4649999985 /\ calculateGifts (now + 1) = 4500000000).
Proof.
  intros H. rewrite !GiftFacts.calculateGifts_value.
  rewrite !Z.rem_mod_nonneg by lia.
  split; intros M; Z.div_mod_to_equations; lia.
Qed.

Lemma gifts_sawtooth_witness :
  0 <= 1735209999999 /\
  (1735209999999 mod 10000000 < 9999999 ->
   calculateGifts (1735209999999 + 1) = calculateGifts 1735209999999 + 15) /\
  (1735209999999 mod 10000000 = 9999999 ->
   calculateGifts 1735209999999 = 4649999985 /\
   calculateGifts (1735209999999 + 1) = 4500000000).
Proof.
  assert (H : 0 <= 1735209999999) by lia.
  split; [exact H|]. exact (gifts_sawtooth 1735209999999 H).
Defined.

(** ** The message generator *)

Module MessageFacts.

Lemma REGION_LOGS_nonempty region msgs :
  objectGet REGION_LOGS region = Own msgs -> msgs <> [].
Proof.
  unfold objectGet. destruct (assoc region REGION_LOGS) as [v|] eqn:E.
  - intros [= <-]. revert E. unfold REGION_LOGS. cbn [assoc].
    repeat (destruct (String.eqb region _); [intros [= <-]; discriminate|]).
    discriminate.
  - destruct (existsb _ _); discriminate.
Qed.

Lemma getSubstitution_dollarFree matched before after repl :
  dollarFree repl = true -> getSubstitution matched before after repl = repl.
Proof.
  induction repl as [|c rest IH]; [reflexivity|]. cbn [dollarFree getSubstitution].
  intros H. apply andb_prop in H as [Hc Hr].
  destruct (Ascii.eqb c "$"); [discriminate Hc|]. rewrite (IH Hr). reflexivity.
Qed.

End MessageFacts.

Import MessageFacts.

(** X15.  At the home base the message is one of the six standby
    lines, whatever the region, the speed, the count and the second
    draw. *)
Theorem standby_at_home_base region speed delivered r1 r2 :
  (0 <= r1)%Q -> (r1 < 1)%Q ->
  exists msg,
    generateIntelMessage "NORTH POLE" region speed delivered r1 r2 = Normal (Some msg) /\
    In msg STANDBY_TEMPLATES.
Proof.
  intros H0 H1. unfold generateIntelMessage. cbn [String.eqb Ascii.eqb Bool.eqb].
  destruct (pick_In STANDBY_TEMPLATES r1) as (msg & -> & Hin); try assumption; [discriminate|].
  eauto.
Qed.

Lemma standby_at_home_base_witness :
  (0 <= 0.9)%Q /\ (0.9 < 1)%Q /\
  exists msg,
    generateIntelMessage "NORTH POLE" "EUROPE" 4.2 4500000000 0.9 0.99
    = Normal (Some msg) /\
    In msg STANDBY_TEMPLATES.
Proof.
  assert (H0 : (0 <= 0.9)%Q) by (vm_compute; discriminate).
  assert (H1 : (0.9 < 1)%Q) by (vm_compute; reflexivity).
  split; [exact H0|]. split; [exact H1|].
  exact (standby_at_home_base "EUROPE" 4.2 4500000000 0.9 0.99 H0 H1).
Defined.

(** X16.  For draws in [0, 1) the generator returns a text, without
    throwing and without [undefined], for every location name and every
    region that is not one of the names objects inherit from
    [Object.prototype]. *)
Theorem message_is_text locationName region speed delivered r1 r2 :
  objectGet REGION_LOGS region <> Inherited ->
  (0 <= r1)%Q -> (r1 < 1)%Q -> (0 <= r2)%Q -> (r2 < 1)%Q ->
  exists msg,
    generateIntelMessage locationName region speed delivered r1 r2 = Normal (Some msg).
Proof.
  intros Hr A0 A1 B0 B1. unfold generateIntelMessage.
  destruct (String.eqb locationName "NORTH POLE").
  { destruct (pick_In STANDBY_TEMPLATES r1) as (msg & -> & _); try assumption;
      [discriminate|eauto]. }
  destruct (Qle_bool lit_0_4 r1); cbn [negb].
  2:{ destruct (pick_In ACTION_LOGS r2) as (msg & -> & _); try assumption;
        [discriminate|eauto]. }
  destruct (objectGet REGION_LOGS region) as [msgs| |] eqn:E; [|congruence|].
  - cbn [truthy]. destruct (Qle_bool lit_0_7 r1); cbn [negb andb].
    + destruct (Qle_bool lit_0_85 r1); cbn [negb].
      * destruct (pick_In GENERIC_LOGS r2) as (msg & -> & _); try assumption;
          [discriminate|eauto].
      * destruct (Qle_bool r2 lit_0_5); cbn [negb]; eauto.
    + destruct (pick_In msgs r2) as (msg & -> & _); try assumption;
        [exact (REGION_LOGS_nonempty region msgs E)|eauto].
  - cbn [truthy]. rewrite andb_false_r.
    destruct (Qle_bool lit_0_85 r1); cbn [negb].
    + destruct (pick_In GENERIC_LOGS r2) as (msg & -> & _); try assumption;
        [discriminate|eauto].
    + destruct (Qle_bool r2 lit_0_5); cbn [negb]; eauto.
Qed.

Lemma message_is_text_witness :
  objectGet REGION_LOGS "EUROPE" <> Inherited /\
  exists msg,
    generateIntelMessage "PARIS" "EUROPE" 4.2 4500000000 0.5 0.3 = Normal (Some msg).
Proof.
  assert (H : objectGet REGION_LOGS "EUROPE" <> Inherited) by (vm_compute; discriminate).
  split; [exact H|].
  apply (message_is_text "PARIS" "EUROPE" 4.2 4500000000 0.5 0.3 H);
    vm_compute; first [discriminate | reflexivity].
Defined.

(** X18.  Away from the home base and for a first draw below 0.4, the
    message is one of the ten action lines; a location name without the
    character [$] is put in place of the first [%LOC%] as it stands,
    and a line without [%LOC%] is returned unchanged. *)
Theorem action_band_substitution locationName region speed delivered r1 r2 :
  locationName <> "NORTH POLE"%string -> dollarFree locationName = true ->
  (r1 < lit_0_4)%Q -> (0 <= r2)%Q -> (r2 < 1)%Q ->
  exists tmpl,
    In tmpl ACTION_LOGS /\
    generateIntelMessage locationName region speed delivered r1 r2 =
    Normal (Some
      match String.index 0 "%LOC%" tmpl with
      | Some i =>
          (String.substring 0 i tmpl ++ locationName ++
           String.substring (i + 5) (String.length tmpl - (i + 5)) tmpl)%string
      | None => tmpl
      end).
Proof.
  intros Hn Hd H4 B0 B1. unfold generateIntelMessage.
  apply String.eqb_neq in Hn. rewrite Hn.
  destruct (Qle_bool lit_0_4 r1) eqn:E; [apply Qle_bool_iff in E; lra|]. cbn [negb].
  destruct (pick_In ACTION_LOGS r2) as (tmpl & -> & Hin); try assumption; [discriminate|].
  exists tmpl. split; [exact Hin|]. unfold replace.
  destruct (String.index 0 "%LOC%" tmpl); [|reflexivity].
  rewrite (getSubstitution_dollarFree _ _ _ _ Hd). reflexivity.
Qed.

Lemma action_band_substitution_witness :
  ("PARIS" <> "NORTH POLE")%string /\ dollarFree "PARIS" = true /\
  exists tmpl,
    In tmpl ACTION_LOGS /\
    generateIntelMessage "PARIS" "EUROPE" 4.2 4500000000 0.1 0.3 =
    Normal (Some
      match String.index 0 "%LOC%" tmpl with
      | Some i =>
          (String.substring 0 i tmpl ++ "PARIS" ++
           String.substring (i + 5) (String.length tmpl - (i + 5)) tmpl)%string
      | None => tmpl
      end).
Proof.
  assert (H1 : ("PARIS" <> "NORTH POLE")%string) by discriminate.
  assert (H2 : dollarFree "PARIS" = true) by reflexivity.
  split; [exact H1|]. split; [exact H2|].
  apply (action_band_substitution "PARIS" "EUROPE" 4.2 4500000000 0.1 0.3 H1 H2);
    vm_compute; first [discriminate | reflexivity].
Defined.

(** ** The log buffer *)

Module LogFacts.

Lemma firstn_min {A} (l : list A) n :
  firstn (Nat.min n (List.length l)) l = firstn n l.
Proof.
  destruct (Nat.le_ge_cases n (List.length l)) as [H|H].
  - rewrite Nat.min_l by exact H. reflexivity.
  - rewrite Nat.min_r by exact H. rewrite firstn_all, firstn_all2 by exact H. reflexivity.
Qed.

(** [a.slice(0, n)] keeps the first [n] elements. *)
Lemma slice_take {A} (l : list A) n : 0 <= n -> slice l 0 n = firstn (Z.to_nat n) l.
Proof.
  intros H. unfold slice. cbn [Z.ltb Z.compare].
  destruct (Z.ltb_spec n 0); [lia|].
  rewrite (Z.min_l 0) by lia. rewrite Z.sub_0_r.
  change (Z.to_nat 0) with 0%nat. cbn [skipn].
  rewrite <- (firstn_min l (Z.to_nat n)). f_equal. lia.
Qed.

Lemma addLog_take i t m prev :
  addLog i t m prev = firstn 5 (mkLog i t m MED :: prev).
Proof. unfold addLog. rewrite slice_take by lia. reflexivity. Qed.

Lemma firstn_app_firstn {A} n (a b : list A) :
  firstn n (a ++ firstn n b) = firstn n (a ++ b).
Proof.
  rewrite !firstn_app, firstn_firstn. f_equal.
  rewrite Nat.min_l by apply Nat.le_sub_l. reflexivity.
Qed.

Lemma addLogs_take news : forall prev,
  (List.length prev <= 5)%nat ->
  addLogs news prev = firstn 5 (rev (map medEntry news) ++ prev).
Proof.
  induction news as [|[[i t] m] rest IH]; intros prev H.
  - cbn [addLogs map rev app]. symmetry. apply firstn_all2. exact H.
  - cbn [addLogs map rev medEntry]. rewrite IH.
    + rewrite addLog_take, firstn_app_firstn, <- app_assoc. reflexivity.
    + rewrite addLog_take, length_firstn. lia.
Qed.

End LogFacts.

Import LogFacts.

(** X19.  Starting from a buffer of at most five entries, after any
    number of [addLog] calls the buffer holds the newest entries first,
    then what is left of the old buffer, cut to five entries in all;
    every new entry has priority MED. *)
Theorem log_buffer_latest_five news prev :
  (List.length prev <= 5)%nat ->
  addLogs news prev = firstn 5 (rev (map medEntry news) ++ prev) /\
  (List.length (addLogs news prev) <= 5)%nat /\
  (forall i t m, hd_error (addLog i t m prev) = Some (mkLog i t m MED)).
Proof.
  intros H. rewrite (addLogs_take news prev H). split; [reflexivity|].
  split; [rewrite length_firstn; lia|].
  intros i t m. rewrite addLog_take. reflexivity.
Qed.

Lemma log_buffer_latest_five_witness :
  let news := [("1", "10:00:00", Some "A"); ("2", "10:00:06", Some "B")]%string in
  let prev := errorLogs "09:59:59" "09:59:59" "09:59:59" in
  (List.length prev <= 5)%nat /\
  addLogs news prev = firstn 5 (rev (map medEntry news) ++ prev) /\
  (List.length (addLogs news prev) <= 5)%nat /\
  (forall i t m, hd_error (addLog i t m prev) = Some (mkLog i t m MED)).
Proof.
  cbv zeta.
  assert (H : (List.length (errorLogs "09:59:59" "09:59:59" "09:59:59") <= 5)%nat)
    by (cbn; lia).
  split; [exact H|].
  exact (log_buffer_latest_five
           [("1", "10:00:00", Some "A"); ("2", "10:00:06", Some "B")]%string
           (errorLogs "09:59:59" "09:59:59" "09:59:59") H).
Defined.

(** X20.  When the gate opens on a buffer holding the three error
    lines, they are not cleared: after [n] new messages the buffer still
    shows the first [5 - n] of them below the new ones, and only the
    fifth message removes the last error line. *)
Theorem error_lines_linger t1 t2 t3 news :
  addLogs news (errorLogs t1 t2 t3) =
  firstn 5 (rev (map medEntry news))
  ++ firstn (5 - List.length news) (errorLogs t1 t2 t3).
Proof.
  rewrite addLogs_take by (cbn; lia).
  rewrite firstn_app, length_rev, length_map. reflexivity.
Qed.
